(** * Veillanalyse: the propagation-network analyzer

    A shallow embedding of [src/analyzers/network_analyzer.py]
    (class [NetworkAnalyzer]) and of the records of [src/database/dto.py] and
    [src/database/models.py] it reads and builds, followed by the properties
    of the analyzer that the specification states, each proved or shown to
    fail on the code.

    Conventions of the embedding.
    - Python [int] is [Z]; Python [float] is an exact rational [Q] (rounding
      is not modelled); [str] is [string]; [None]-able columns are [option].
    - A [datetime] is the number of whole seconds since the epoch, a [Z].
    - A Python [dict] is an insertion-ordered association list without
      duplicate keys ([Dict]); a networkx graph is a dictionary of nodes and
      a dictionary of edges, both carrying attribute dictionaries.
    - A call that may raise returns a [result]; [try ... except Exception]
      is [try_except].  Methods of [NetworkAnalyzer] thread the instance
      (its two graphs) through the monad [M]; a method that raises leaves
      the instance as the raise found it. *)

From Stdlib Require Import List String Ascii ZArith QArith Bool Lia.
From Stdlib Require Import Sorted Permutation.
Import ListNotations.

Local Open Scope string_scope.
Local Open Scope Z_scope.
Local Open Scope list_scope.

Set Implicit Arguments.

(** ** Python values held in attribute dictionaries *)

Inductive value : Type :=
| VNone
| VBool (b : bool)
| VInt (z : Z)
| VFloat (q : Q)
| VStr (s : string).

(** Truthiness of the column types the analyzer tests with [if x]. *)
Definition truthy_str (s : string) : bool := negb (s =? "")%string.

Definition truthy_opt_str (o : option string) : bool :=
  match o with
  | None => false
  | Some s => truthy_str s
  end.

Definition truthy_Q (q : Q) : bool := negb (Qeq_bool q 0).

Definition truthy_Z (z : Z) : bool := negb (z =? 0)%Z.

(** ** Keys of dictionaries: types with a boolean equality *)

Class Hashable (K : Type) : Type := {
  key_eqb : K -> K -> bool;
  key_eqb_eq : forall a b, key_eqb a b = true <-> a = b
}.

#[global, refine] Instance Hashable_string : Hashable string :=
  {| key_eqb := String.eqb |}.
Proof. exact String.eqb_eq. Defined.

#[global, refine] Instance Hashable_Z : Hashable Z :=
  {| key_eqb := Z.eqb |}.
Proof. exact Z.eqb_eq. Defined.

#[global, refine] Instance Hashable_pair {A B} `{Hashable A} `{Hashable B}
  : Hashable (A * B) :=
  {| key_eqb := fun p q => key_eqb (fst p) (fst q) && key_eqb (snd p) (snd q) |}.
Proof.
  intros [a b] [c d]; simpl.
  rewrite andb_true_iff, !key_eqb_eq.
  split; [intros [-> ->]; reflexivity | intros E; inversion E; auto].
Defined.

(** ** Insertion-ordered dictionaries *)

Module Dict.
Section Dict.
Context {K V : Type} `{Hashable K}.

Definition t := list (K * V).

Definition empty : t := [].

(** [d.get(k)] *)
Fixpoint get (k : K) (d : t) : option V :=
  match d with
  | [] => None
  | (k', v) :: r => if key_eqb k k' then Some v else get k r
  end.

(** [k in d] *)
Definition mem (k : K) (d : t) : bool :=
  match get k d with Some _ => true | None => false end.

(** [d.get(k, dflt)] *)
Definition get_default (k : K) (dflt : V) (d : t) : V :=
  match get k d with Some v => v | None => dflt end.

(** [d[k] = v]: an existing key keeps its position, a new key goes last. *)
Fixpoint set (k : K) (v : V) (d : t) : t :=
  match d with
  | [] => [(k, v)]
  | (k', v') :: r =>
      if key_eqb k k' then (k', v) :: r else (k', v') :: set k v r
  end.

(** [d.update(other)] *)
Definition update (other : list (K * V)) (d : t) : t :=
  fold_left (fun acc kv => set (fst kv) (snd kv) acc) other d.

Definition keys (d : t) : list K := map fst d.
Definition values (d : t) : list V := map snd d.
Definition len (d : t) : Z := Z.of_nat (List.length d).
End Dict.
Arguments t : clear implicits.
End Dict.

(** ** Exceptions

    A Python call either returns or raises.  Only exceptions derived from
    [Exception] are modelled (the ones [except Exception] catches); an
    exception is represented by the name of its class or by its message. *)

Definition exn := string.

(** Raised by Python when an object has no attribute of the name asked for. *)
Definition AttributeError : exn := "AttributeError".

Inductive result (A : Type) : Type :=
| Ok (a : A)
| Raise (e : exn).
Arguments Ok {A} a.
Arguments Raise {A} e.

(** [try: body except Exception: handler] *)
Definition try_except {A} (body : result A) (handler : exn -> result A) : result A :=
  match body with
  | Ok a => Ok a
  | Raise e => handler e
  end.

(** ** Generic list helpers *)

(** Python's [list.sort] is stable; [insert_by le x l] puts [x] in front of
    the first element it may precede, so that an element that came earlier
    in the input stays ahead of later elements with an equal key. *)
Fixpoint insert_by {A} (le : A -> A -> bool) (x : A) (l : list A) : list A :=
  match l with
  | [] => [x]
  | y :: r => if le x y then x :: y :: r else y :: insert_by le x r
  end.

Definition stable_sort {A} (le : A -> A -> bool) (l : list A) : list A :=
  fold_right (insert_by le) [] l.

(** [l[:n]] for a Python [int] [n]: a negative [n] counts from the end. *)
Definition slice_to {A} (n : Z) (l : list A) : list A :=
  if n <? 0 then firstn (Z.to_nat (Z.of_nat (List.length l) + n)) l
  else firstn (Z.to_nat n) l.

(** [len(set(l))] is the length of [distinct l]. *)
Fixpoint distinct {K} `{Hashable K} (l : list K) : list K :=
  match l with
  | [] => []
  | x :: r => if existsb (key_eqb x) r then distinct r else x :: distinct r
  end.

Definition Zlength' {A} (l : list A) : Z := Z.of_nat (List.length l).

(** ** networkx graphs

    [nodes] maps a node to its attribute dictionary, in insertion order
    (the order [G.nodes()] iterates in); [edges] maps an edge [(u, v)] to its
    attribute dictionary.  [directed] tells [nx.DiGraph] from [nx.Graph]: an
    undirected graph stores an edge under one orientation and finds it under
    both. *)

Definition attrs := Dict.t string value.

Record Graph : Type := mkGraph {
  directed : bool;
  nodes : Dict.t string attrs;
  edges : Dict.t (string * string) attrs
}.

(** [nx.DiGraph()] and [nx.Graph()] *)
Definition DiGraph : Graph := mkGraph true [] [].
Definition UGraph : Graph := mkGraph false [] [].

(** [G.clear()] *)
Definition clear (g : Graph) : Graph := mkGraph (directed g) [] [].

Definition number_of_nodes (g : Graph) : Z := Dict.len (nodes g).
Definition number_of_edges (g : Graph) : Z := Dict.len (edges g).

(** [G.add_node(n, **a)]: a new node starts with no attribute, then the
    attributes given are written over the node's dictionary. *)
Definition add_node (n : string) (a : list (string * value)) (g : Graph) : Graph :=
  mkGraph (directed g)
    (Dict.set n (Dict.update a (Dict.get_default n [] (nodes g))) (nodes g))
    (edges g).

(** A node mentioned by [add_edge] is created without attributes. *)
Definition ensure_node (n : string) (d : Dict.t string attrs) : Dict.t string attrs :=
  if Dict.mem n d then d else Dict.set n [] d.

Definition edge_key (g : Graph) (u v : string) : string * string :=
  if directed g then (u, v)
  else if Dict.mem (v, u) (edges g) then (v, u) else (u, v).

(** [G.add_edge(u, v, **a)] *)
Definition add_edge (u v : string) (a : list (string * value)) (g : Graph) : Graph :=
  let k := edge_key g u v in
  mkGraph (directed g)
    (ensure_node v (ensure_node u (nodes g)))
    (Dict.set k (Dict.update a (Dict.get_default k [] (edges g))) (edges g)).

(** [G.get_edge_data(u, v)] *)
Definition get_edge_data (g : Graph) (u v : string) : option attrs :=
  Dict.get (edge_key g u v) (edges g).

(** Degrees of a directed graph. *)
Definition out_degree (g : Graph) (n : string) : Z :=
  Zlength' (filter (fun e => key_eqb (fst e) n) (Dict.keys (edges g))).

Definition in_degree (g : Graph) (n : string) : Z :=
  Zlength' (filter (fun e => key_eqb (snd e) n) (Dict.keys (edges g))).

Definition degree (g : Graph) (n : string) : Z := in_degree g n + out_degree g n.

(** [dict(G.out_degree())] and [dict(G.degree())] *)
Definition out_degree_view (g : Graph) : Dict.t string Z :=
  map (fun n => (n, out_degree g n)) (Dict.keys (nodes g)).

Definition degree_view (g : Graph) : Dict.t string Z :=
  map (fun n => (n, degree g n)) (Dict.keys (nodes g)).

(** The out-edges of a directed graph in the order its adjacency is walked:
    node by node in the order of [G.nodes()], and for each node in the
    order its out-edges were first added. *)
Definition adjacency (g : Graph) : list ((string * string) * attrs) :=
  flat_map (fun u => filter (fun ea => key_eqb (fst (fst ea)) u) (edges g))
    (Dict.keys (nodes g)).

(** [G.to_undirected()] of a directed graph: every node with its attributes,
    then every edge of the adjacency; an edge met in both directions keeps
    one attribute dictionary, which the direction met last updates. *)
Definition to_undirected (g : Graph) : Graph :=
  let g1 := fold_left (fun acc na => add_node (fst na) (snd na) acc) (nodes g) UGraph in
  fold_left (fun acc ea => add_edge (fst (fst ea)) (snd (fst ea)) (snd ea) acc)
    (adjacency g) g1.

(** [nx.density(G)]: [m / (n (n - 1))] for a directed graph, twice that for
    an undirected one, and 0 without edges or with at most one node. *)
Definition nx_density (g : Graph) : Q :=
  let n := number_of_nodes g in
  let m := number_of_edges g in
  if (m =? 0) || (n <=? 1) then 0%Q
  else
    let d := (inject_Z m / inject_Z (n * (n - 1)))%Q in
    if directed g then d else (d * 2)%Q.

(** Neighbours of a node in an undirected graph. *)
Definition neighbors (g : Graph) (n : string) : list string :=
  flat_map (fun e =>
     (if key_eqb (fst e) n then [snd e] else []) ++
     (if key_eqb (snd e) n then [fst e] else []))
    (Dict.keys (edges g)).

(** One round of breadth-first search: the nodes seen so far, followed by
    their neighbours not yet seen. *)
Definition bfs_round (g : Graph) (seen : list string) : list string :=
  fold_left (fun acc n => if existsb (key_eqb n) acc then acc else acc ++ [n])
    (flat_map (neighbors g) seen) seen.

Fixpoint bfs (g : Graph) (rounds : nat) (seen : list string) : list string :=
  match rounds with
  | O => seen
  | S r => bfs g r (bfs_round g seen)
  end.

(** networkx's own [is_connected]: refused for a directed graph, undefined
    for the null graph, otherwise a search from the first node reaches them
    all. *)
Definition networkx_is_connected (g : Graph) : result bool :=
  if directed g then Raise "not implemented for directed type"
  else
    match Dict.keys (nodes g) with
    | [] => Raise "Connectivity is undefined for the null graph."
    | n0 :: _ =>
        Ok (Zlength' (bfs g (List.length (nodes g)) [n0]) =? number_of_nodes g)
    end.


(** ** Rows of the store ([src/database/models.py])

    Primary and foreign keys are UUIDs kept as text ([UUID(as_uuid=False)]),
    so [str(x.id)] is [x.id]. *)

Module Source.
Record t : Type := mk {
  id : string;
  name : string;
  source_type : string;
  language : option string;
  is_doppelganger : bool;
  is_amplifier : bool;
  is_active : bool
}.
End Source.

Module Content.
Record t : Type := mk {
  id : string;
  source_id : option string;
  published_at : option Z
}.
End Content.

Module Propagation.
Record t : Type := mk {
  source_content_id : string;
  target_content_id : string;
  propagation_type : string;
  similarity_score : option Q;
  mutation_detected : bool;
  time_delta_seconds : option Z;
  created_at : Z
}.

(** The relationships the mapped class declares, each with the column that
    holds the key of the related content row.  [class Propagation] in
    [models.py] has columns only ([id], [source_content_id],
    [target_content_id], [propagation_type], [similarity_score],
    [mutation_detected], [mutation_type], [mutation_description],
    [time_delta_seconds], [created_at]): it declares no relationship, and
    no other class gives it one by back-reference. *)
Definition relationships : list (string * (t -> string)) := [].
End Propagation.

(** The session: the three tables the analyzer queries. *)
Module Store.
Record t : Type := mk {
  sources : list Source.t;
  contents : list Content.t;
  propagations : list Propagation.t
}.
End Store.

(** The content row with a given key, or [None]. *)
Definition content_by_id (db : Store.t) (cid : string) : option Content.t :=
  find (fun c => key_eqb (Content.id c) cid) (Store.contents db).

(** [Propagation.<name>] for a name that is not a column, as handed to
    [joinedload]: the attribute exists when the class declares a
    relationship of that name; otherwise the lookup raises
    [AttributeError]. *)
Definition relationship (name : string) : result (Propagation.t -> string) :=
  match Dict.get name Propagation.relationships with
  | Some key => Ok key
  | None => Raise AttributeError
  end.

(** [prop.<name>] on a row: the content row the relationship leads to, or
    [None]; [AttributeError] when there is no such relationship. *)
Definition related (db : Store.t) (name : string) (prop : Propagation.t)
  : result (option Content.t) :=
  match relationship name with
  | Ok key => Ok (content_by_id db (key prop))
  | Raise e => Raise e
  end.

(** [query(Source).filter(Source.is_active == True).all()] *)
Definition active_sources (db : Store.t) : list Source.t :=
  filter Source.is_active (Store.sources db).

(** [timedelta(days=days_back)] in seconds *)
Definition days (days_back : Z) : Z := days_back * 86400.

(** The rows selected by [.filter(Propagation.created_at >= cutoff_date)]. *)
Definition propagations_since (db : Store.t) (cutoff_date : Z) : list Propagation.t :=
  filter (fun p => cutoff_date <=? Propagation.created_at p) (Store.propagations db).

(** The query the three methods that read links share:
    [query(Propagation)
       .options(joinedload(Propagation.source_content),
                joinedload(Propagation.target_content))
       .filter(Propagation.created_at >= cutoff_date).all()].
    The two arguments of [options] are evaluated, in order, before any row
    is read. *)
Definition query_propagations (db : Store.t) (cutoff_date : Z)
  : result (list Propagation.t) :=
  match relationship "source_content" with
  | Raise e => Raise e
  | Ok _ =>
      match relationship "target_content" with
      | Raise e => Raise e
      | Ok _ => Ok (propagations_since db cutoff_date)
      end
  end.

Definition published_le (a b : Content.t) : bool :=
  match Content.published_at a, Content.published_at b with
  | Some x, Some y => x <=? y
  | _, _ => true
  end.

(** [query(Content).options(joinedload(Content.source))
       .filter(Content.published_at.isnot(None))
       .order_by(Content.published_at).all()]; [source] is a relationship
    that [class Content] declares, so the option is accepted; rows
    published at the same time keep the order of the table. *)
Definition contents_by_time (db : Store.t) : list Content.t :=
  stable_sort published_le
    (filter (fun c => match Content.published_at c with Some _ => true | None => false end)
       (Store.contents db)).

(** ** Records produced ([src/database/dto.py]) *)

Module SuperspreaderInfo.
Record t : Type := mk {
  id : string;
  name : value;
  source_type : value;
  out_degree : Z;
  pagerank : Q;
  betweenness : Q;
  score : Q;
  is_doppelganger : value
}.
End SuperspreaderInfo.

(** [community_count] is documented in [dto.py] as the number of
    communities. *)
Module NetworkStats.
Record t : Type := mk {
  node_count : Z;
  edge_count : Z;
  density : Q;
  community_count : Z;
  avg_degree : Q;
  is_connected : bool
}.
End NetworkStats.

Module CoordinatedBehaviorEvent.
Record t : Type := mk {
  timestamp : Z;
  content_count : Z;
  unique_sources : Z;
  window_seconds : Z;
  content_ids : list string
}.
End CoordinatedBehaviorEvent.

(** The statistics of [analyze_propagation_patterns]. *)
Module Patterns.
Record t : Type := mk {
  total : Z;
  by_type : Dict.t string Z;
  mutations : Z;
  avg_time_delta : Q;
  fast_propagation : Z;
  same_day : Z
}.
End Patterns.

(** The dictionary that method returns: [{"total": 0, "patterns": {}}] when
    the window holds no link, the six statistics otherwise. *)
Inductive pattern_report : Type :=
| NoPropagations
| PatternStats (patterns : Patterns.t).

(** The report of [run_full_analysis].  [communities] holds [count] and
    [partition] when the entry is present, [exports] the path of the GEXF
    file when the entry is present. *)
Module Results.
Record t : Type := mk {
  timestamp : Z;
  period_days : Z;
  stats : NetworkStats.t;
  superspreaders : list SuperspreaderInfo.t;
  propagation_patterns : pattern_report;
  coordinated_behavior : list CoordinatedBehaviorEvent.t;
  communities : option (Z * Dict.t string Z);
  exports : option string
}.
End Results.

(** ** The analyzer instance and its monad *)

Record NetworkAnalyzer : Type := mkAnalyzer {
  session : Store.t;
  content_graph : Graph;
  source_graph : Graph
}.

(** [NetworkAnalyzer.__init__] on an open session *)
Definition init (db : Store.t) : NetworkAnalyzer := mkAnalyzer db DiGraph DiGraph.

(** A method returns or raises, and in both cases hands back the instance
    with the changes made so far. *)
Definition M (A : Type) : Type := NetworkAnalyzer -> result A * NetworkAnalyzer.

Definition ret {A} (a : A) : M A := fun self => (Ok a, self).

Definition bind {A B} (m : M A) (k : A -> M B) : M B :=
  fun self =>
    match m self with
    | (Ok a, self') => k a self'
    | (Raise e, self') => (Raise e, self')
    end.

Definition get_self : M NetworkAnalyzer := fun self => (Ok self, self).

Definition set_content_graph (g : Graph) : M unit :=
  fun self => (Ok tt, mkAnalyzer (session self) g (source_graph self)).

Definition set_source_graph (g : Graph) : M unit :=
  fun self => (Ok tt, mkAnalyzer (session self) (content_graph self) g).

(** A call, made from a method, that does not touch the instance. *)
Definition call {A} (r : result A) : M A := fun self => (r, self).

Declare Scope analyzer_scope.
Delimit Scope analyzer_scope with analyzer.
Notation "x <- m ;; k" := (bind m (fun x => k))
  (at level 61, m at next level, right associativity) : analyzer_scope.
Notation "m ;;; k" := (bind m (fun _ => k))
  (at level 61, right associativity) : analyzer_scope.
Local Open Scope analyzer_scope.

(** [for x in l: s = body(s, x)] with a body that may raise. *)
Fixpoint for_each {S A} (body : S -> A -> result S) (l : list A) (s : S) : result S :=
  match l with
  | [] => Ok s
  | x :: r =>
      match body s x with
      | Ok s' => for_each body r s'
      | Raise e => Raise e
      end
  end.

(** ** [build_content_graph] *)

(** [prop.similarity_score and prop.similarity_score < min_similarity] *)
Definition below_threshold (min_similarity : Q) (p : Propagation.t) : bool :=
  match Propagation.similarity_score p with
  | None => false
  | Some s => truthy_Q s && negb (Qle_bool min_similarity s)
  end.

(** The keyword arguments of the [add_edge] call; [x or 0] is [0] when [x]
    is [None] or zero. *)
Definition content_edge_attrs (p : Propagation.t) : list (string * value) :=
  [ ("propagation_type", VStr (Propagation.propagation_type p));
    ("similarity",
       match Propagation.similarity_score p with
       | Some s => if truthy_Q s then VFloat s else VInt 0
       | None => VInt 0
       end);
    ("mutation", VBool (Propagation.mutation_detected p));
    ("time_delta",
       match Propagation.time_delta_seconds p with
       | Some d => if truthy_Z d then VInt d else VInt 0
       | None => VInt 0
       end) ].

(** The body of [for prop in propagations]. *)
Definition content_graph_step (min_similarity : Q) (g : Graph) (p : Propagation.t) : Graph :=
  if below_threshold min_similarity p then g
  else add_edge (Propagation.source_content_id p) (Propagation.target_content_id p)
         (content_edge_attrs p) g.

Definition build_content_graph (now : Z) (days_back : Z) (min_similarity : Q) : M Graph :=
  self <- get_self ;;
  set_content_graph (clear (content_graph self)) ;;;
  let cutoff_date := now - days days_back in
  propagations <- call (query_propagations (session self) cutoff_date) ;;
  self <- get_self ;;
  let g := fold_left (content_graph_step min_similarity) propagations (content_graph self) in
  set_content_graph g ;;;
  ret g.

(** ** [build_source_graph] *)

(** [source.language or "unknown"] *)
Definition language_or_unknown (s : Source.t) : string :=
  match Source.language s with
  | Some l => if truthy_str l then l else "unknown"
  | None => "unknown"
  end.

Definition source_node_attrs (s : Source.t) : list (string * value) :=
  [ ("name", VStr (Source.name s));
    ("source_type", VStr (Source.source_type s));
    ("language", VStr (language_or_unknown s));
    ("is_doppelganger", VBool (Source.is_doppelganger s));
    ("is_amplifier", VBool (Source.is_amplifier s)) ].

(** [for source in sources: self.source_graph.add_node(...)] *)
Definition add_source_nodes (sources : list Source.t) (g : Graph) : Graph :=
  fold_left (fun acc s => add_node (Source.id s) (source_node_attrs s) acc) sources g.

(** [edge_weights[k] += 1] on a [defaultdict(int)] *)
Definition increment (k : string * string) (d : Dict.t (string * string) Z)
  : Dict.t (string * string) Z :=
  Dict.set k (Dict.get_default k 0 d + 1) d.

(** The body of the counting loop; it starts by reading
    [prop.source_content] and [prop.target_content]. *)
Definition count_step (db : Store.t) (edge_weights : Dict.t (string * string) Z)
    (prop : Propagation.t) : result (Dict.t (string * string) Z) :=
  match related db "source_content" prop with
  | Raise e => Raise e
  | Ok source_content =>
      match related db "target_content" prop with
      | Raise e => Raise e
      | Ok target_content =>
          Ok match source_content, target_content with
             | Some sc, Some tc =>
                 let src_id := Content.source_id sc in
                 let tgt_id := Content.source_id tc in
                 match src_id, tgt_id with
                 | Some s, Some t =>
                     if truthy_str s && truthy_str t && negb (s =? t)%string
                     then increment (s, t) edge_weights
                     else edge_weights
                 | _, _ => edge_weights
                 end
             | _, _ => edge_weights
             end
      end
  end.

(** [for (src, tgt), weight in edge_weights.items(): add_edge(src, tgt, weight=weight)] *)
Definition add_weighted_edges (edge_weights : Dict.t (string * string) Z) (g : Graph) : Graph :=
  fold_left (fun acc kw => add_edge (fst (fst kw)) (snd (fst kw)) [("weight", VInt (snd kw))] acc)
    edge_weights g.

Definition build_source_graph (now : Z) (days_back : Z) : M Graph :=
  self <- get_self ;;
  set_source_graph (clear (source_graph self)) ;;;
  let sources := active_sources (session self) in
  self <- get_self ;;
  set_source_graph (add_source_nodes sources (source_graph self)) ;;;
  let cutoff_date := now - days days_back in
  propagations <- call (query_propagations (session self) cutoff_date) ;;
  edge_weights <- call (for_each (count_step (session self)) propagations []) ;;
  self <- get_self ;;
  let g := add_weighted_edges edge_weights (source_graph self) in
  set_source_graph g ;;;
  ret g.

(** ** [analyze_propagation_patterns] *)

(** The dictionary [patterns] and the two local counters of the loop. *)
Record pattern_loop : Type := mkPatternLoop {
  loop_patterns : Patterns.t;
  loop_total_delta : Z;
  loop_counted : Z
}.

(** [patterns["by_type"][t] += 1] on a [defaultdict(int)] *)
Definition count_type (t : string) (d : Dict.t string Z) : Dict.t string Z :=
  Dict.set t (Dict.get_default t 0 d + 1) d.

(** The body of [for prop in propagations]. *)
Definition patterns_step (st : pattern_loop) (prop : Propagation.t) : pattern_loop :=
  let p := loop_patterns st in
  let by_type := count_type (Propagation.propagation_type prop) (Patterns.by_type p) in
  let mutations :=
    if Propagation.mutation_detected prop then Patterns.mutations p + 1
    else Patterns.mutations p in
  match Propagation.time_delta_seconds prop with
  | Some d =>
      if truthy_Z d then
        mkPatternLoop
          (Patterns.mk (Patterns.total p) by_type mutations (Patterns.avg_time_delta p)
             (if d <? 3600 then Patterns.fast_propagation p + 1
              else Patterns.fast_propagation p)
             (if d <? 86400 then Patterns.same_day p + 1 else Patterns.same_day p))
          (loop_total_delta st + d) (loop_counted st + 1)
      else
        mkPatternLoop
          (Patterns.mk (Patterns.total p) by_type mutations (Patterns.avg_time_delta p)
             (Patterns.fast_propagation p) (Patterns.same_day p))
          (loop_total_delta st) (loop_counted st)
  | None =>
      mkPatternLoop
        (Patterns.mk (Patterns.total p) by_type mutations (Patterns.avg_time_delta p)
           (Patterns.fast_propagation p) (Patterns.same_day p))
        (loop_total_delta st) (loop_counted st)
  end.

(** The method after the query. *)
Definition propagation_patterns (propagations : list Propagation.t) : pattern_report :=
  match propagations with
  | [] => NoPropagations
  | _ =>
      let init_patterns := Patterns.mk (Zlength' propagations) [] 0 0%Q 0 0 in
      let st := fold_left patterns_step propagations (mkPatternLoop init_patterns 0 0) in
      let p := loop_patterns st in
      PatternStats
        (Patterns.mk (Patterns.total p) (Patterns.by_type p) (Patterns.mutations p)
           (if 0 <? loop_counted st
            then (inject_Z (loop_total_delta st) / inject_Z (loop_counted st))%Q
            else Patterns.avg_time_delta p)
           (Patterns.fast_propagation p) (Patterns.same_day p))
  end.

Definition analyze_propagation_patterns (now : Z) (days_back : Z) : M pattern_report :=
  self <- get_self ;;
  let cutoff_date := now - days days_back in
  propagations <- call (query_propagations (session self) cutoff_date) ;;
  ret (propagation_patterns propagations).

(** ** The graph library and the file system

    The algorithms of networkx and python-louvain are parameters of the
    analyzer; each may raise. *)

Record Library : Type := mkLibrary {
  (** [nx.pagerank(G, max_iter=...)] *)
  nx_pagerank : Graph -> Z -> result (Dict.t string Q);
  (** [nx.betweenness_centrality(G)] *)
  nx_betweenness_centrality : Graph -> result (Dict.t string Q);
  (** [community_louvain.best_partition(G)] *)
  best_partition : Graph -> result (Dict.t string Z);
  (** [nx.is_connected(G)] *)
  nx_is_connected : Graph -> result bool
}.

(** What the export reads and writes outside the instance. *)
Record FileSystem : Type := mkFileSystem {
  (** [settings.exports_dir] *)
  exports_dir : string;
  (** [Path(p).parent] *)
  parent : string -> string;
  (** [Path(p).mkdir(parents=True, exist_ok=True)] *)
  mkdir : string -> result unit;
  (** [nx.write_gexf(G, p)] *)
  nx_write_gexf : Graph -> string -> result unit;
  (** [t.strftime("%Y%m%d_%H%M%S")] *)
  strftime : Z -> string
}.

(** [Path(a) / b] *)
Definition path_join (a b : string) : string := a ++ "/" ++ b.

Section Methods.
Variable lib : Library.
Variable fs : FileSystem.

(** ** [detect_communities] *)

Definition detect_communities (graph : option Graph) : M (Dict.t string Z) :=
  self <- get_self ;;
  let graph :=
    match graph with
    | None => to_undirected (source_graph self)
    | Some g => g
    end in
  if number_of_nodes graph <? 2 then ret []
  else
    call (try_except (best_partition lib graph) (fun _ => Ok [])).

(** ** [find_superspreaders] *)

(** [{n: 0 for n in graph.nodes()}] *)
Definition zero_for_nodes (g : Graph) : Dict.t string Q :=
  map (fun n => (n, 0%Q)) (Dict.keys (nodes g)).

(** The weighted score of the loop body. *)
Definition combined_score (out_deg : Z) (pr bt : Q) : Q :=
  (inject_Z out_deg * (4 # 10) + pr * 100 * (4 # 10) + bt * 10 * (2 # 10))%Q.

(** The record appended for one node. *)
Definition superspreader_of (out_degrees : Dict.t string Z)
    (pagerank betweenness : Dict.t string Q) (node : string) (a : attrs)
  : SuperspreaderInfo.t :=
  let score :=
    combined_score (Dict.get_default node 0 out_degrees)
      (Dict.get_default node 0%Q pagerank)
      (Dict.get_default node 0%Q betweenness) in
  SuperspreaderInfo.mk node
    (Dict.get_default "name" (VStr node) a)
    (Dict.get_default "source_type" (VStr "unknown") a)
    (Dict.get_default node 0 out_degrees)
    (Dict.get_default node 0%Q pagerank)
    (Dict.get_default node 0%Q betweenness)
    score
    (Dict.get_default "is_doppelganger" (VBool false) a).

(** The key of [sort(key=lambda x: x.score, reverse=True)]. *)
Definition score_ge (a b : SuperspreaderInfo.t) : bool :=
  Qle_bool (SuperspreaderInfo.score b) (SuperspreaderInfo.score a).

Definition find_superspreaders (graph : option Graph) (top_n : Z)
  : M (list SuperspreaderInfo.t) :=
  self <- get_self ;;
  let graph :=
    match graph with
    | None => source_graph self
    | Some g => g
    end in
  if number_of_nodes graph =? 0 then ret []
  else
    let out_degrees := out_degree_view graph in
    pagerank <- call (try_except (nx_pagerank lib graph 100)
                        (fun _ => Ok (zero_for_nodes graph))) ;;
    betweenness <- call (try_except (nx_betweenness_centrality lib graph)
                           (fun _ => Ok (zero_for_nodes graph))) ;;
    let superspreaders :=
      map (fun na => superspreader_of out_degrees pagerank betweenness (fst na) (snd na))
        (nodes graph) in
    ret (slice_to top_n (stable_sort score_ge superspreaders)).

(** ** [detect_coordinated_behavior] *)

(** The inner loop [for j in range(i, len(contents))], run on the contents
    from index [i] on: [t0] is the anchor's publication time. *)
Fixpoint window_from (t0 : Z) (time_window_seconds : Z) (rest : list Content.t)
  : list Content.t :=
  match rest with
  | [] => []
  | other :: r =>
      match Content.published_at other with
      | None => window_from t0 time_window_seconds r
      | Some t =>
          let delta := t - t0 in
          if delta <=? time_window_seconds
          then other :: window_from t0 time_window_seconds r
          else if delta >? time_window_seconds then []
          else window_from t0 time_window_seconds r
      end
  end.

(** [{c.source_id for c in window_contents if c.source_id}] *)
Definition window_sources (window_contents : list Content.t) : list string :=
  distinct
    (flat_map (fun c => match Content.source_id c with
                        | Some s => if truthy_str s then [s] else []
                        | None => []
                        end) window_contents).

(** [published_at.strftime("%Y-%m-%dT%H")]: the hour the instant falls in. *)
Definition hour_key (t : Z) : Z := t / 3600.

Definition event_of (t0 : Z) (time_window_seconds : Z) (window_contents : list Content.t)
  : CoordinatedBehaviorEvent.t :=
  CoordinatedBehaviorEvent.mk t0
    (Zlength' window_contents)
    (Zlength' (window_sources window_contents))
    time_window_seconds
    (map Content.id (firstn 10 window_contents)).

(** The test made on the window of one anchor, before the hour is looked up. *)
Definition coordinated (min_actors : Z) (window_contents : list Content.t) : bool :=
  (min_actors <=? Zlength' window_contents) &&
  (min_actors <=? Zlength' (window_sources window_contents)).

(** The outer loop [for i, content in enumerate(contents)], run on the
    contents from index [i] on, with the hours already reported. *)
Fixpoint sweep (time_window_seconds min_actors : Z) (seen_hours : list Z)
    (contents : list Content.t) : list CoordinatedBehaviorEvent.t :=
  match contents with
  | [] => []
  | content :: rest =>
      match Content.published_at content with
      | None => sweep time_window_seconds min_actors seen_hours rest
      | Some t0 =>
          let window_contents := window_from t0 time_window_seconds contents in
          if min_actors <=? Zlength' window_contents then
            if min_actors <=? Zlength' (window_sources window_contents) then
              if existsb (Z.eqb (hour_key t0)) seen_hours
              then sweep time_window_seconds min_actors seen_hours rest
              else event_of t0 time_window_seconds window_contents
                   :: sweep time_window_seconds min_actors (hour_key t0 :: seen_hours) rest
            else sweep time_window_seconds min_actors seen_hours rest
          else sweep time_window_seconds min_actors seen_hours rest
      end
  end.

(** The detector on the sequence the query returned. *)
Definition coordination_events (time_window_seconds min_actors : Z)
    (contents : list Content.t) : list CoordinatedBehaviorEvent.t :=
  match contents with
  | [] => []
  | _ => sweep time_window_seconds min_actors [] contents
  end.

Definition detect_coordinated_behavior (time_window_seconds min_actors : Z)
  : M (list CoordinatedBehaviorEvent.t) :=
  self <- get_self ;;
  ret (coordination_events time_window_seconds min_actors (contents_by_time (session self))).

(** ** [get_network_stats] *)

Definition sum_Z (l : list Z) : Z := fold_left Z.add l 0.

Definition get_network_stats : M NetworkStats.t :=
  self <- get_self ;;
  let g := source_graph self in
  let stats :=
    NetworkStats.mk (number_of_nodes g) (number_of_edges g)
      (if 0 <? number_of_nodes g then nx_density g else 0%Q)
      0 0%Q false in
  if 0 <? number_of_nodes g then
    let degrees := degree_view g in
    let avg := (inject_Z (sum_Z (Dict.values degrees)) / inject_Z (Dict.len degrees))%Q in
    let stats :=
      NetworkStats.mk (NetworkStats.node_count stats) (NetworkStats.edge_count stats)
        (NetworkStats.density stats) (NetworkStats.community_count stats) avg
        (NetworkStats.is_connected stats) in
    call (try_except
            (match nx_is_connected lib (to_undirected g) with
             | Ok b =>
                 Ok (NetworkStats.mk (NetworkStats.node_count stats)
                       (NetworkStats.edge_count stats) (NetworkStats.density stats)
                       (NetworkStats.community_count stats) (NetworkStats.avg_degree stats) b)
             | Raise e => Raise e
             end)
            (fun _ => Ok stats))
  else ret stats.

(** ** [export_to_gexf] *)

Definition export_to_gexf (filepath : string) (graph : option Graph) : M string :=
  self <- get_self ;;
  let graph :=
    match graph with
    | None => source_graph self
    | Some g => g
    end in
  let output_path := filepath in
  call (mkdir fs (parent fs output_path)) ;;;
  call (nx_write_gexf fs graph output_path) ;;;
  ret output_path.

(** ** [run_full_analysis]

    The clock reads [now] throughout one run. *)

Definition run_full_analysis (now : Z) (days_back : Z) : M Results.t :=
  build_content_graph now days_back (1 # 2) ;;;
  build_source_graph now days_back ;;;
  stats <- get_network_stats ;;
  superspreaders <- find_superspreaders None 20 ;;
  propagation_patterns <- analyze_propagation_patterns now days_back ;;
  coordinated_behavior <- detect_coordinated_behavior 300 3 ;;
  self <- get_self ;;
  communities <-
    (if 2 <? number_of_nodes (source_graph self) then
       partition <- detect_communities None ;;
       ret (Some (Zlength' (distinct (Dict.values partition)), partition))
     else ret None) ;;
  self <- get_self ;;
  exports <-
    (if 0 <? number_of_nodes (source_graph self) then
       let dir := path_join (exports_dir fs) "graphs" in
       call (mkdir fs dir) ;;;
       gexf_path <- export_to_gexf
                      (path_join dir ("source_network_" ++ strftime fs now ++ ".gexf"))
                      None ;;
       ret (Some gexf_path)
     else ret None) ;;
  ret (Results.mk now days_back stats superspreaders propagation_patterns
         coordinated_behavior communities exports).

End Methods.

(** * Definitions used to state the properties *)

(** The owning source of a content row, when it is known. *)
Definition owner (c : Content.t) : option string :=
  match Content.source_id c with
  | Some s => if truthy_str s then Some s else None
  | None => None
  end.

(** The ordered pair of owning sources of a link, as the specification
    counts links: both content keys the link holds resolve to a content
    row, and both rows have a known owning source. *)
Definition link_owners (db : Store.t) (p : Propagation.t) : option (string * string) :=
  match content_by_id db (Propagation.source_content_id p),
        content_by_id db (Propagation.target_content_id p) with
  | Some sc, Some tc =>
      match owner sc, owner tc with
      | Some a, Some b => Some (a, b)
      | _, _ => None
      end
  | _, _ => None
  end.

Definition links_pair (db : Store.t) (a b : string) (p : Propagation.t) : bool :=
  match link_owners db p with
  | Some (x, y) => (x =? a)%string && (y =? b)%string
  | None => false
  end.

(** The number of links of [props] from content of [a] to content of [b]:
    the weight the specification gives the edge from [a] to [b]. *)
Definition links_between (db : Store.t) (props : list Propagation.t) (a b : string) : Z :=
  Zlength' (filter (links_pair db a b) props).

(** The instance a method leaves, whether it returns or raises. *)
Definition left_by {A} (m : M A) (self : NetworkAnalyzer) : NetworkAnalyzer := snd (m self).

(** What networkx keeps true of every graph: node keys are distinct, edge
    keys are distinct, every edge joins two nodes of the graph, and the
    attribute dictionary of a node has distinct keys. *)
Definition nx_graph (g : Graph) : Prop :=
  NoDup (Dict.keys (nodes g)) /\
  NoDup (Dict.keys (edges g)) /\
  (forall a b, In (a, b) (Dict.keys (edges g)) ->
     In a (Dict.keys (nodes g)) /\ In b (Dict.keys (nodes g))) /\
  (forall n a, In (n, a) (nodes g) -> NoDup (Dict.keys a)).

Definition no_self_loop (g : Graph) : Prop :=
  forall a, ~ In (a, a) (Dict.keys (edges g)).

Definition endpoint_of (n : string) (k : string * string) : bool :=
  key_eqb n (fst k) || key_eqb n (snd k).

(** The graph the method works on. *)
Definition ranked_graph (graph : option Graph) (self : NetworkAnalyzer) : Graph :=
  match graph with
  | None => source_graph self
  | Some g => g
  end.

(** The two centrality dictionaries after the [try]/[except] blocks. *)
Definition pagerank_of (lib : Library) (g : Graph) : Dict.t string Q :=
  match nx_pagerank lib g 100 with
  | Ok d => d
  | Raise _ => zero_for_nodes g
  end.

Definition betweenness_of (lib : Library) (g : Graph) : Dict.t string Q :=
  match nx_betweenness_centrality lib g with
  | Ok d => d
  | Raise _ => zero_for_nodes g
  end.

(** One record per node, in the order of [graph.nodes()]. *)
Definition all_records (lib : Library) (g : Graph) : list SuperspreaderInfo.t :=
  map (fun na => superspreader_of (out_degree_view g) (pagerank_of lib g)
                   (betweenness_of lib g)
                   (fst na) (snd na))
    (nodes g).

(** The spec's combined score. *)
Definition spec_score (out_deg : Z) (pr bt : Q) : Q :=
  ((4 # 10) * inject_Z out_deg + (4 # 10) * (100 * pr) + (2 # 10) * (10 * bt))%Q.

(** The graph [detect_communities] partitions. *)
Definition partitioned_graph (graph : option Graph) (self : NetworkAnalyzer) : Graph :=
  match graph with
  | None => to_undirected (source_graph self)
  | Some g => g
  end.

Definition published (c : Content.t) : bool :=
  match Content.published_at c with Some _ => true | None => false end.

(** [c] lies within [w] seconds of the anchor time [t0]. *)
Definition within (t0 w : Z) (c : Content.t) : bool :=
  match Content.published_at c with
  | Some t => t - t0 <=? w
  | None => false
  end.

(** The longest prefix whose elements all satisfy [f]. *)
Fixpoint take_while {A} (f : A -> bool) (l : list A) : list A :=
  match l with
  | [] => []
  | x :: r => if f x then x :: take_while f r else []
  end.

(** The event every anchor would report if hours were not looked up: one
    per index whose window passes the two tests, in sweep order. *)
Fixpoint candidates (w m : Z) (contents : list Content.t)
  : list CoordinatedBehaviorEvent.t :=
  match contents with
  | [] => []
  | content :: rest =>
      match Content.published_at content with
      | Some t0 =>
          if coordinated m (window_from t0 w contents)
          then event_of t0 w (window_from t0 w contents) :: candidates w m rest
          else candidates w m rest
      | None => candidates w m rest
      end
  end.

Definition event_hour (e : CoordinatedBehaviorEvent.t) : Z :=
  hour_key (CoordinatedBehaviorEvent.timestamp e).

(** Keep an event when its hour is neither in [seen] nor the hour of an
    event kept before it. *)
Fixpoint first_per_hour (seen : list Z) (events : list CoordinatedBehaviorEvent.t)
  : list CoordinatedBehaviorEvent.t :=
  match events with
  | [] => []
  | e :: r =>
      if existsb (Z.eqb (event_hour e)) seen then first_per_hour seen r
      else e :: first_per_hour (event_hour e :: seen) r
  end.

(** Three items published at 0 s, 10 s and 20 s. *)
Definition burst_of_three (c1 c2 c3 : Content.t) : Prop :=
  Content.published_at c1 = Some 0 /\
  Content.published_at c2 = Some 10 /\
  Content.published_at c3 = Some 20.

(** The sweep as the specification words it: after an event is reported
    the index jumps past the whole matched window.  [fuel] bounds the
    number of anchors tried. *)
Fixpoint sweep_skip_ahead (fuel : nat) (w m : Z) (seen_hours : list Z)
    (contents : list Content.t) : list CoordinatedBehaviorEvent.t :=
  match fuel with
  | O => []
  | S fuel' =>
      match contents with
      | [] => []
      | content :: rest =>
          match Content.published_at content with
          | None => sweep_skip_ahead fuel' w m seen_hours rest
          | Some t0 =>
              let window_contents := window_from t0 w contents in
              if coordinated m window_contents then
                if existsb (Z.eqb (hour_key t0)) seen_hours
                then sweep_skip_ahead fuel' w m seen_hours rest
                else event_of t0 w window_contents
                     :: sweep_skip_ahead fuel' w m (hour_key t0 :: seen_hours)
                          (skipn (List.length window_contents) contents)
              else sweep_skip_ahead fuel' w m seen_hours rest
          end
      end
  end.

Definition skip_ahead_events (w m : Z) (contents : list Content.t)
  : list CoordinatedBehaviorEvent.t :=
  sweep_skip_ahead (List.length contents) w m [] contents.

(** The ordered pairs of distinct elements of a list. *)
Definition ordered_pairs (l : list string) : list (string * string) :=
  flat_map (fun a => map (pair a) (filter (fun b => negb (key_eqb a b)) l)) l.

(** The sequence is ordered by publication time (and, when it has more than
    one item, every item has a publication time). *)
Definition time_sorted (contents : list Content.t) : Prop :=
  StronglySorted
    (fun a b => match Content.published_at a, Content.published_at b with
                | Some x, Some y => x <= y
                | _, _ => False
                end)
    contents.

(** The two nodes are joined in one direction or the other. *)
Definition joined (g : Graph) (a b : string) : Prop :=
  In (a, b) (Dict.keys (edges g)) \/ In (b, a) (Dict.keys (edges g)).

(** * Example data *)

(** A small store: two active sources and a retired one, five content rows,
    and links from [src-a] to [src-b] (twice), inside [src-a], from the
    retired source, and to a row without owner. *)
Definition demo_store : Store.t :=
  Store.mk
    [ Source.mk "src-a" "Alpha" "telegram" (Some "fr") true false true;
      Source.mk "src-b" "Beta" "media" None false true true;
      Source.mk "src-z" "Zeta" "domain" (Some "ru") false false false ]
    [ Content.mk "c1" (Some "src-a") (Some 0);
      Content.mk "c2" (Some "src-b") (Some 10);
      Content.mk "c3" (Some "src-a") (Some 20);
      Content.mk "c4" None None;
      Content.mk "c5" (Some "src-z") (Some 4000) ]
    [ Propagation.mk "c1" "c2" "forward" (Some (9 # 10)) false (Some 10) 500;
      Propagation.mk "c3" "c2" "quote" None true None 600;
      Propagation.mk "c1" "c3" "repost" (Some (8 # 10)) false (Some 20) 700;
      Propagation.mk "c1" "c4" "link" (Some (7 # 10)) false None 800;
      Propagation.mk "c5" "c1" "similar" (Some 0%Q) false (Some 0) 900 ].

(** A library whose PageRank answers and whose betweenness fails. *)
Definition demo_library : Library :=
  mkLibrary
    (fun _ _ => Ok [("src-a", 5 # 10); ("src-b", 3 # 10); ("src-z", 2 # 10)])
    (fun _ => Raise "power iteration failed")
    (fun _ => Ok [("src-a", 0); ("src-b", 0); ("src-z", 1)])
    networkx_is_connected.

(** A file system that accepts every write. *)
Definition demo_fs : FileSystem :=
  mkFileSystem "exports" (fun p => p) (fun _ => Ok tt) (fun _ _ => Ok tt) (fun _ => "19700101_000000").

(** A source graph filled by hand, as the repository's tests fill one: the
    nodes of the demo store's active sources, then two weighted edges, one
    of them from a source that has no node yet. *)
Definition demo_graph : Graph :=
  add_edge "src-z" "src-a" [("weight", VInt 1)]
    (add_edge "src-a" "src-b" [("weight", VInt 2)]
       (add_source_nodes (active_sources demo_store) DiGraph)).

Definition demo_analyzer : NetworkAnalyzer :=
  mkAnalyzer demo_store DiGraph demo_graph.

(** Two nodes and one edge between them. *)
Definition two_node_graph : Graph :=
  add_edge "src1" "src2" [("weight", VInt 5)]
    (add_node "src2" [("name", VStr "Source 2")]
       (add_node "src1" [("name", VStr "Source 1")] DiGraph)).

Definition two_node_analyzer : NetworkAnalyzer :=
  mkAnalyzer (Store.mk [] [] []) DiGraph two_node_graph.

(** Three posts 10 s apart by three sources, and the same posts by two. *)
Definition three_sources : list Content.t :=
  [ Content.mk "p1" (Some "s1") (Some 0);
    Content.mk "p2" (Some "s2") (Some 10);
    Content.mk "p3" (Some "s3") (Some 20) ].

Definition two_sources : list Content.t :=
  [ Content.mk "p1" (Some "s1") (Some 0);
    Content.mk "p2" (Some "s2") (Some 10);
    Content.mk "p3" (Some "s1") (Some 20) ].

(** One burst of five posts, 5 s apart, that starts 10 s before an hour
    ends. *)
Definition straddling_burst : list Content.t :=
  [ Content.mk "b1" (Some "s1") (Some 3590);
    Content.mk "b2" (Some "s2") (Some 3595);
    Content.mk "b3" (Some "s3") (Some 3600);
    Content.mk "b4" (Some "s4") (Some 3605);
    Content.mk "b5" (Some "s5") (Some 3610) ].

(** A library all of whose algorithms fail. *)
Definition failing_library : Library :=
  mkLibrary
    (fun _ _ => Raise "PowerIterationFailedConvergence")
    (fun _ => Raise "betweenness failed")
    (fun _ => Raise "louvain failed")
    (fun _ => Raise "connectivity failed").

(** Two sources that forwarded each other's content; the edge from [b] was
    added first. *)
Definition reciprocal_graph : Graph :=
  add_edge "a" "b" [("weight", VInt 3)]
    (add_edge "b" "a" [("weight", VInt 1)]
       (add_node "b" [] (add_node "a" [] DiGraph))).

(** * Properties *)

(** ** Keys and dictionaries *)

Lemma key_eqb_refl {K} `{Hashable K} (a : K) : key_eqb a a = true.
Proof. apply key_eqb_eq; reflexivity. Qed.

Lemma key_eqb_neq {K} `{Hashable K} (a b : K) : key_eqb a b = false <-> a <> b.
Proof.
  rewrite <- key_eqb_eq. destruct (key_eqb a b); split; congruence.
Qed.

Lemma key_eq_dec {K} `{Hashable K} (a b : K) : {a = b} + {a <> b}.
Proof.
  destruct (key_eqb a b) eqn:E.
  - left; apply key_eqb_eq; exact E.
  - right; apply key_eqb_neq; exact E.
Defined.

Module DictFacts.
Import Dict.
Section Facts.
Context {K V : Type} `{Hashable K}.

Lemma get_set_same (k : K) (v : V) (d : t K V) : get k (set k v d) = Some v.
Proof.
  induction d as [|[k' v'] r IH]; simpl.
  - rewrite key_eqb_refl; reflexivity.
  - destruct (key_eqb k k') eqn:E; simpl; rewrite E; auto.
Qed.

Lemma get_set_other (k : K) (k' : K) (v : V) (d : t K V) : k <> k' -> get k' (set k v d) = get k' d.
Proof.
  intros N. induction d as [|[k0 v0] r IH]; simpl.
  - assert (key_eqb k' k = false) as -> by (apply key_eqb_neq; congruence).
    reflexivity.
  - destruct (key_eqb k k0) eqn:E; simpl.
    + apply key_eqb_eq in E; subst k0.
      assert (key_eqb k' k = false) as -> by (apply key_eqb_neq; congruence).
      reflexivity.
    + destruct (key_eqb k' k0); auto.
Qed.

Lemma get_set (k : K) (k' : K) (v : V) (d : t K V) :
  get k' (set k v d) = if key_eqb k' k then Some v else get k' d.
Proof.
  destruct (key_eqb k' k) eqn:E.
  - apply key_eqb_eq in E; subst; apply get_set_same.
  - apply key_eqb_neq in E; apply get_set_other; congruence.
Qed.

Lemma get_some_in (k : K) (v : V) (d : t K V) : get k d = Some v -> In (k, v) d.
Proof.
  induction d as [|[k' v'] r IH]; simpl; [discriminate|].
  destruct (key_eqb k k') eqn:E; intros G.
  - apply key_eqb_eq in E; inversion G; subst; auto.
  - right; auto.
Qed.

Lemma get_none_iff (k : K) (d : t K V) : get k d = None <-> ~ In k (keys d).
Proof.
  induction d as [|[k' v'] r IH]; simpl.
  - tauto.
  - destruct (key_eqb k k') eqn:E.
    + apply key_eqb_eq in E; subst. split; [discriminate | tauto].
    + apply key_eqb_neq in E. rewrite IH. split; [intros ? [?|?] | ]; intuition congruence.
Qed.

Lemma mem_iff (k : K) (d : t K V) : mem k d = true <-> In k (keys d).
Proof.
  unfold mem. destruct (get k d) eqn:G.
  - split; auto. intros _.
    apply get_some_in in G. unfold keys.
    change k with (fst (k, v)). apply in_map; exact G.
  - apply get_none_iff in G. split; [discriminate | tauto].
Qed.

Lemma in_get_nodup (k : K) (v : V) (d : t K V) : NoDup (keys d) -> In (k, v) d -> get k d = Some v.
Proof.
  induction d as [|[k' v'] r IH]; simpl; [tauto|].
  intros ND [E|I].
  - inversion E; subst. rewrite key_eqb_refl; reflexivity.
  - inversion ND as [|? ? NI ND']; subst.
    destruct (key_eqb k k') eqn:E.
    + apply key_eqb_eq in E; subst. exfalso; apply NI.
      change k' with (fst (k', v)). apply in_map; exact I.
    + auto.
Qed.

Lemma keys_set (k : K) (v : V) (d : t K V) :
  keys (set k v d) = if mem k d then keys d else keys d ++ [k].
Proof.
  unfold mem. induction d as [|[k' v'] r IH]; simpl; [reflexivity|].
  destruct (key_eqb k k') eqn:E; simpl; [reflexivity|].
  rewrite IH. destruct (get k r); reflexivity.
Qed.

Lemma in_keys_set (k : K) (k' : K) (v : V) (d : t K V) :
  In k' (keys (set k v d)) <-> k' = k \/ In k' (keys d).
Proof.
  rewrite keys_set. destruct (mem k d) eqn:M.
  - apply mem_iff in M. split; [tauto | intros [->|?]; auto].
  - rewrite in_app_iff; simpl. intuition.
Qed.

Lemma nodup_set (k : K) (v : V) (d : t K V) : NoDup (keys d) -> NoDup (keys (set k v d)).
Proof.
  intros ND. rewrite keys_set. destruct (mem k d) eqn:M; [exact ND|].
  assert (~ In k (keys d)) as NI.
  { intros I. apply mem_iff in I. congruence. }
  clear M. induction (keys d) as [|a l IH]; simpl.
  - constructor; [tauto | constructor].
  - inversion ND; subst. constructor.
    + rewrite in_app_iff; simpl. intros [?|[?|[]]]; [tauto | subst; apply NI; left; reflexivity].
    + apply IH; auto. intros ?; apply NI; right; assumption.
Qed.

Lemma nodup_update (o : list (K * V)) (d : t K V) : NoDup (keys d) -> NoDup (keys (update o d)).
Proof.
  unfold update. revert d. induction o as [|[k v] o IH]; simpl; auto.
  intros d ND. apply IH, nodup_set, ND.
Qed.

Lemma in_keys_update (o : list (K * V)) (d : t K V) (k : K) :
  In k (keys (update o d)) <-> In k (keys d) \/ In k (map fst o).
Proof.
  unfold update. revert d. induction o as [|[k0 v0] o IH]; simpl; intros d.
  - tauto.
  - rewrite IH, in_keys_set. intuition.
Qed.

Lemma update_nil_l (o : list (K * V)) :
  NoDup (map fst o) -> update o [] = o.
Proof.
  unfold update.
  assert (forall d, NoDup (keys d ++ map fst o) ->
            fold_left (fun acc kv => set (fst kv) (snd kv) acc) o d = d ++ o) as G.
  { induction o as [|[k v] o IH]; simpl; intros d ND.
    - rewrite app_nil_r; reflexivity.
    - assert (set k v d = d ++ [(k, v)]) as ->.
      { apply NoDup_remove_2 in ND.
        assert (~ In k (keys d)) as NI by (rewrite in_app_iff in ND; tauto).
        clear - NI. induction d as [|[k' v'] r IH]; simpl; [reflexivity|].
        simpl in NI. destruct (key_eqb k k') eqn:E.
        - apply key_eqb_eq in E; subst; tauto.
        - rewrite IH; tauto. }
      rewrite IH.
      + rewrite <- app_assoc; reflexivity.
      + unfold keys in *. rewrite map_app; simpl. rewrite <- app_assoc; simpl.
        exact ND. }
  intros ND. apply (G []). exact ND.
Qed.
End Facts.
End DictFacts.

(** ** More facts about dictionaries *)

Section DictionaryFacts.
Context {K V : Type} `{Hashable K}.

Lemma set_absent (k : K) (v : V) d :
  Dict.get k d = None -> Dict.set k v d = d ++ [(k, v)].
Proof.
  induction d as [|[k' v'] r IH]; simpl; [reflexivity|].
  destruct (key_eqb k k'); [discriminate|].
  intros G; rewrite IH; auto.
Qed.

Lemma get_app (k : K) (d1 d2 : Dict.t K V) :
  Dict.get k (d1 ++ d2) =
  match Dict.get k d1 with Some v => Some v | None => Dict.get k d2 end.
Proof.
  induction d1 as [|[k' v'] r IH]; simpl; [reflexivity|].
  destruct (key_eqb k k'); auto.
Qed.

Lemma get_map_values {W} (f : V -> W) (k : K) (d : Dict.t K V) :
  Dict.get k (map (fun kv => (fst kv, f (snd kv))) d) = option_map f (Dict.get k d).
Proof.
  induction d as [|[k' v'] r IH]; simpl; [reflexivity|].
  destruct (key_eqb k k'); auto.
Qed.

Lemma get_tabulate (f : K -> V) (k : K) (l : list K) :
  Dict.get k (map (fun n => (n, f n)) l) =
  if existsb (key_eqb k) l then Some (f k) else None.
Proof.
  induction l as [|a l IH]; simpl; [reflexivity|].
  destruct (key_eqb k a) eqn:E; simpl; auto.
  apply key_eqb_eq in E; subst; reflexivity.
Qed.

Lemma existsb_key_in (k : K) (l : list K) :
  existsb (key_eqb k) l = true <-> In k l.
Proof.
  rewrite existsb_exists. split.
  - intros [x [I E]]. apply key_eqb_eq in E; subst; exact I.
  - intros I. exists k; split; [exact I | apply key_eqb_refl].
Qed.

Lemma distinct_in (k : K) (l : list K) : In k (distinct l) <-> In k l.
Proof.
  induction l as [|a l IH]; simpl; [tauto|].
  destruct (existsb (key_eqb a) l) eqn:E.
  - rewrite IH. apply existsb_key_in in E. split; [tauto | intros [->|?]; auto].
  - simpl. rewrite IH. tauto.
Qed.

Lemma distinct_nodup (l : list K) : NoDup (distinct l).
Proof.
  induction l as [|a l IH]; simpl; [constructor|].
  destruct (existsb (key_eqb a) l) eqn:E; [exact IH|].
  constructor; [|exact IH].
  rewrite distinct_in. intros I. apply existsb_key_in in I. congruence.
Qed.
End DictionaryFacts.

(** ** Lengths, and the graph primitives *)

Lemma Zlength'_cons {A} (x : A) l : Zlength' (x :: l) = Zlength' l + 1.
Proof. unfold Zlength'. simpl List.length. lia. Qed.

Lemma Zlength'_nonneg {A} (l : list A) : 0 <= Zlength' l.
Proof. unfold Zlength'. lia. Qed.

Lemma add_node_directed n a g : directed (add_node n a g) = directed g.
Proof. reflexivity. Qed.

Lemma add_node_edges n a g : edges (add_node n a g) = edges g.
Proof. reflexivity. Qed.

Lemma add_edge_directed u v a g : directed (add_edge u v a g) = directed g.
Proof. reflexivity. Qed.

Lemma add_source_nodes_directed sources : forall g,
  directed (add_source_nodes sources g) = directed g.
Proof.
  unfold add_source_nodes.
  induction sources as [|s l IH]; simpl; auto.
  intros g. rewrite IH. reflexivity.
Qed.

Lemma add_source_nodes_edges sources : forall g,
  edges (add_source_nodes sources g) = edges g.
Proof.
  unfold add_source_nodes.
  induction sources as [|s l IH]; simpl; auto.
  intros g. rewrite IH. reflexivity.
Qed.

(** ** The queries that name a relationship of [Propagation] *)

(** No name is a relationship of [Propagation]. *)
Lemma relationship_raises name : relationship name = Raise AttributeError.
Proof. reflexivity. Qed.

Lemma query_propagations_raises db cutoff_date :
  query_propagations db cutoff_date = Raise AttributeError.
Proof. reflexivity. Qed.

(** [build_content_graph] clears the content graph, then raises. *)
Lemma build_content_graph_run now days_back min_similarity self :
  build_content_graph now days_back min_similarity self =
  (Raise AttributeError,
   mkAnalyzer (session self) (clear (content_graph self)) (source_graph self)).
Proof. reflexivity. Qed.

(** [build_source_graph] clears the source graph, adds the nodes of the
    active sources, then raises. *)
Lemma build_source_graph_run now days_back self :
  build_source_graph now days_back self =
  (Raise AttributeError,
   mkAnalyzer (session self) (content_graph self)
     (add_source_nodes (active_sources (session self)) (clear (source_graph self)))).
Proof. reflexivity. Qed.

Lemma analyze_propagation_patterns_run now days_back self :
  analyze_propagation_patterns now days_back self = (Raise AttributeError, self).
Proof. reflexivity. Qed.

Lemma run_full_analysis_run lib fs now days_back self :
  run_full_analysis lib fs now days_back self =
  (Raise AttributeError,
   mkAnalyzer (session self) (clear (content_graph self)) (source_graph self)).
Proof. reflexivity. Qed.

(** ** The source graph: edges and weights *)

(** C1, the defect.  [build_source_graph] never reaches its counting loop:
    the query that feeds it names [Propagation.source_content], which
    [models.py] does not declare, so on every store the method raises
    [AttributeError] after the nodes of the active sources were added and
    leaves a source graph without any edge.  On the demo store two links of
    the window go from content of [src-a] to content of [src-b]: the
    specification asks for an edge from [src-a] to [src-b] of weight 2,
    and the graph left has none. *)
Theorem source_graph_edges_never_built :
  (forall (self : NetworkAnalyzer) (now days_back : Z),
     let g := add_source_nodes (active_sources (session self)) (clear (source_graph self)) in
     build_source_graph now days_back self =
       (Raise AttributeError, mkAnalyzer (session self) (content_graph self) g) /\
     edges g = [] /\
     (forall a b, get_edge_data g a b = None)) /\
  links_between demo_store (propagations_since demo_store (1000 - days 1)) "src-a" "src-b" = 2 /\
  get_edge_data (source_graph (left_by (build_source_graph 1000 1) (init demo_store)))
    "src-a" "src-b" = None.
Proof.
  split; [|split; vm_compute; reflexivity].
  intros self now days_back g.
  assert (edges g = []) as E.
  { unfold g. rewrite add_source_nodes_edges. reflexivity. }
  split; [apply build_source_graph_run|].
  split; [exact E|].
  intros a b. unfold get_edge_data. rewrite E. reflexivity.
Qed.

Example demo_source_graph_left :
  build_source_graph 1000 1 (init demo_store) =
  (Raise AttributeError,
   mkAnalyzer demo_store DiGraph
     (mkGraph true
        [ ("src-a", [ ("name", VStr "Alpha"); ("source_type", VStr "telegram");
                      ("language", VStr "fr"); ("is_doppelganger", VBool true);
                      ("is_amplifier", VBool false) ]);
          ("src-b", [ ("name", VStr "Beta"); ("source_type", VStr "media");
                      ("language", VStr "unknown"); ("is_doppelganger", VBool false);
                      ("is_amplifier", VBool true) ]) ]
        [])).
Proof. vm_compute. reflexivity. Qed.

(** ** Stable sorting and slicing *)

Section StableSort.
Context {A : Type} (le : A -> A -> bool).

Lemma insert_by_perm x l : Permutation (x :: l) (insert_by le x l).
Proof.
  induction l as [|y r IH]; simpl; [reflexivity|].
  destruct (le x y); [reflexivity|].
  rewrite perm_swap. constructor. exact IH.
Qed.

Lemma stable_sort_perm l : Permutation l (stable_sort le l).
Proof.
  induction l as [|x l IH]; simpl; [constructor|].
  rewrite <- insert_by_perm. constructor. exact IH.
Qed.

Lemma stable_sort_in x l : In x (stable_sort le l) <-> In x l.
Proof.
  split; apply Permutation_in;
    [symmetry|]; apply stable_sort_perm.
Qed.

Lemma stable_sort_length l : List.length (stable_sort le l) = List.length l.
Proof. symmetry. apply Permutation_length, stable_sort_perm. Qed.

Hypothesis le_total : forall a b, le a b = false -> le b a = true.
Hypothesis le_trans : forall a b c, le a b = true -> le b c = true -> le a c = true.

Lemma insert_by_sorted x l :
  StronglySorted (fun a b => le a b = true) l ->
  StronglySorted (fun a b => le a b = true) (insert_by le x l).
Proof.
  induction 1 as [|y r S IH F]; simpl.
  - constructor; constructor.
  - destruct (le x y) eqn:E.
    + constructor; [constructor; assumption|].
      constructor; [exact E|].
      rewrite Forall_forall in *. intros z I. eapply le_trans; eauto.
    + constructor; [exact IH|].
      rewrite Forall_forall in *. intros z I.
      apply (Permutation_in _ (Permutation_sym (insert_by_perm x r))) in I.
      destruct I as [<-|I]; auto.
Qed.

Lemma stable_sort_sorted l :
  StronglySorted (fun a b => le a b = true) (stable_sort le l).
Proof.
  induction l as [|x l IH]; simpl; [constructor|].
  apply insert_by_sorted, IH.
Qed.
End StableSort.

Lemma in_firstn {A} (x : A) n l : In x (firstn n l) -> In x l.
Proof.
  intros I. rewrite <- (firstn_skipn n l). apply in_or_app; left; exact I.
Qed.

Lemma slice_to_in {A} (x : A) n l : In x (slice_to n l) -> In x l.
Proof. unfold slice_to. destruct (n <? 0); apply in_firstn. Qed.

Lemma slice_to_length {A} n (l : list A) :
  0 <= n -> Zlength' (slice_to n l) = Z.min n (Zlength' l).
Proof.
  intros P. unfold slice_to, Zlength'.
  assert ((n <? 0) = false) as -> by (apply Z.ltb_ge; lia).
  rewrite length_firstn. lia.
Qed.

Lemma firstn_sorted {A} (R : A -> A -> Prop) n : forall l,
  StronglySorted R l -> StronglySorted R (firstn n l).
Proof.
  induction n as [|n IH]; intros l S; simpl; [constructor|].
  destruct S as [|x l S F]; [constructor|].
  constructor; [apply IH; exact S|].
  rewrite Forall_forall in *. intros y I. apply F.
  eapply in_firstn; exact I.
Qed.

Lemma slice_to_sorted {A} (R : A -> A -> Prop) n (l : list A) :
  StronglySorted R l -> StronglySorted R (slice_to n l).
Proof. unfold slice_to. destruct (n <? 0); apply firstn_sorted. Qed.

Lemma insert_by_filter {A} (le : A -> A -> bool) (p : A -> bool) x l :
  (forall y, p x = true -> p y = true -> le x y = true) ->
  filter p (insert_by le x l) = if p x then x :: filter p l else filter p l.
Proof.
  intros Hp. induction l as [|y r IH]; cbn [insert_by filter].
  - destruct (p x); reflexivity.
  - destruct (le x y) eqn:E; cbn [filter].
    + destruct (p x); reflexivity.
    + rewrite IH. destruct (p x) eqn:Px, (p y) eqn:Py; try reflexivity.
      rewrite (Hp y eq_refl Py) in E. discriminate.
Qed.

(** Elements that the order does not separate keep their input order. *)
Lemma stable_sort_filter {A} (le : A -> A -> bool) (p : A -> bool) l :
  (forall x y, p x = true -> p y = true -> le x y = true) ->
  filter p (stable_sort le l) = filter p l.
Proof.
  intros Hp. induction l as [|x l IH]; [reflexivity|].
  cbn [stable_sort fold_right filter].
  rewrite insert_by_filter by (intros y; apply Hp).
  fold (stable_sort le l). rewrite IH. reflexivity.
Qed.

Lemma firstn_nodup {A} n (l : list A) : NoDup l -> NoDup (firstn n l).
Proof.
  revert l. induction n as [|n IH]; intros l ND; [constructor|].
  destruct ND as [|x l NI ND]; [constructor|].
  cbn [firstn]. constructor; [|apply IH; exact ND].
  intros I. apply NI. eapply in_firstn; exact I.
Qed.

Lemma firstn_min_length {A} k (l : list A) :
  firstn (Nat.min k (List.length l)) l = firstn k l.
Proof.
  destruct (Nat.le_gt_cases k (List.length l)) as [L|L].
  - rewrite Nat.min_l by exact L. reflexivity.
  - rewrite Nat.min_r by lia. rewrite firstn_all, firstn_all2 by lia. reflexivity.
Qed.

Lemma slice_to_firstn {A} n (l : list A) :
  slice_to n l = firstn (Z.to_nat (Zlength' (slice_to n l))) l.
Proof.
  unfold slice_to, Zlength'. destruct (n <? 0);
    rewrite Nat2Z.id, length_firstn, firstn_min_length; reflexivity.
Qed.

Lemma slice_to_all {A} n (l : list A) : Zlength' l <= n -> slice_to n l = l.
Proof.
  intros L. unfold slice_to, Zlength' in *.
  assert ((n <? 0) = false) as -> by (apply Z.ltb_ge; lia).
  apply firstn_all2. lia.
Qed.

Lemma slice_to_length_any {A} n (l : list A) :
  Zlength' (slice_to n l) =
  if n <? 0 then Z.max 0 (Zlength' l + n) else Z.min n (Zlength' l).
Proof.
  unfold slice_to, Zlength'. destruct (n <? 0) eqn:N; rewrite length_firstn.
  - apply Z.ltb_lt in N. lia.
  - apply Z.ltb_ge in N. lia.
Qed.

Lemma all_records_ids lib g :
  map SuperspreaderInfo.id (all_records lib g) = Dict.keys (nodes g).
Proof. unfold all_records, Dict.keys. rewrite map_map. reflexivity. Qed.

Lemma all_records_length lib g : Zlength' (all_records lib g) = number_of_nodes g.
Proof.
  unfold Zlength', all_records, number_of_nodes, Dict.len. rewrite length_map. reflexivity.
Qed.

Lemma strongly_sorted_app {A} (R : A -> A -> Prop) (l1 l2 : list A) :
  StronglySorted R (l1 ++ l2) -> forall a b, In a l1 -> In b l2 -> R a b.
Proof.
  induction l1 as [|x l1 IH]; intros S a b Ia Ib; [destruct Ia|].
  cbn [app] in S. inversion S as [|? ? S' F]; subst.
  destruct Ia as [<-|Ia].
  - rewrite Forall_forall in F. apply F. apply in_or_app. right; exact Ib.
  - apply IH; assumption.
Qed.

(** ** [find_superspreaders] as a function of the library's answers *)

Lemma find_superspreaders_run lib graph top_n self :
  find_superspreaders lib graph top_n self =
  (Ok (slice_to top_n (stable_sort score_ge (all_records lib (ranked_graph graph self)))), self).
Proof.
  unfold find_superspreaders, bind, get_self. cbv zeta.
  fold (ranked_graph graph self). set (g := ranked_graph graph self).
  destruct (number_of_nodes g =? 0) eqn:Z0.
  - apply Z.eqb_eq in Z0. unfold number_of_nodes, Dict.len in Z0.
    unfold all_records. destruct (nodes g); [|simpl in Z0; lia].
    unfold ret, slice_to. simpl. destruct (top_n <? 0); rewrite firstn_nil; reflexivity.
  - unfold all_records, pagerank_of, betweenness_of, call, try_except, ret.
    destruct (nx_pagerank lib g 100); destruct (nx_betweenness_centrality lib g);
      reflexivity.
Qed.

Lemma score_ge_total a b : score_ge a b = false -> score_ge b a = true.
Proof.
  unfold score_ge. intros F. apply Qle_bool_iff.
  destruct (Qlt_le_dec (SuperspreaderInfo.score a) (SuperspreaderInfo.score b)) as [L|L].
  - apply Qlt_le_weak; exact L.
  - apply Qle_bool_iff in L. congruence.
Qed.

Lemma score_ge_trans a b c :
  score_ge a b = true -> score_ge b c = true -> score_ge a c = true.
Proof.
  unfold score_ge. rewrite !Qle_bool_iff. intros X Y.
  eapply Qle_trans; eassumption.
Qed.

Lemma strongly_sorted_impl {A} (R S : A -> A -> Prop) l :
  (forall a b, R a b -> S a b) -> StronglySorted R l -> StronglySorted S l.
Proof.
  intros RS. induction 1 as [|x l St IH F]; constructor; auto.
  rewrite Forall_forall in *. auto.
Qed.

Lemma out_degree_view_get g n :
  In n (Dict.keys (nodes g)) ->
  Dict.get_default n 0 (out_degree_view g) = out_degree g n.
Proof.
  intros I. unfold Dict.get_default, out_degree_view.
  rewrite (get_tabulate (out_degree g)).
  apply existsb_key_in in I. rewrite I. reflexivity.
Qed.

Lemma combined_score_spec od pr bt : (combined_score od pr bt == spec_score od pr bt)%Q.
Proof. unfold combined_score, spec_score. ring. Qed.

Lemma ranking_sorted lib g :
  StronglySorted
    (fun a b => (SuperspreaderInfo.score b <= SuperspreaderInfo.score a)%Q)
    (stable_sort score_ge (all_records lib g)).
Proof.
  apply strongly_sorted_impl with (R := fun a b => score_ge a b = true).
  - intros a b. unfold score_ge. apply Qle_bool_iff.
  - apply stable_sort_sorted; [apply score_ge_total | apply score_ge_trans].
Qed.

(** Every node has its record in the full ranking. *)
Lemma ranking_covers lib g v :
  In v (Dict.keys (nodes g)) ->
  exists r, In r (stable_sort score_ge (all_records lib g)) /\ SuperspreaderInfo.id r = v.
Proof.
  intros I. unfold Dict.keys in I. apply in_map_iff in I as [[n a] [<- I]].
  exists (superspreader_of (out_degree_view g) (pagerank_of lib g) (betweenness_of lib g) n a).
  split; [|reflexivity].
  apply stable_sort_in. unfold all_records.
  apply in_map_iff. exists (n, a). split; [reflexivity | exact I].
Qed.

Lemma ranking_length lib g :
  Zlength' (stable_sort score_ge (all_records lib g)) = number_of_nodes g.
Proof. unfold Zlength'. rewrite stable_sort_length. apply all_records_length. Qed.

(** C3. [find_superspreaders] returns, for a requested size [N], the first
    [N] records (all of them when the graph has fewer nodes) of the list
    that holds one record per node, sorted by descending combined score:
    the records returned followed by the records left out are a
    permutation of the records of all nodes, in descending order of score,
    so no record left out scores more than a record returned, and the
    records returned belong to distinct nodes.  Every record carries the
    out-degree of its node, the library's PageRank and betweenness of its
    node, and the score
    0.4 out_degree + 0.4 (100 pagerank) + 0.2 (10 betweenness) of these
    fields; on a graph without nodes the result is the empty list and no
    error is raised. *)
Theorem find_superspreaders_ranking :
  forall (lib : Library) (graph : option Graph) (top_n : Z) (self : NetworkAnalyzer),
    0 <= top_n ->
    let g := ranked_graph graph self in
    exists l,
      find_superspreaders lib graph top_n self = (Ok l, self) /\
      Zlength' l = Z.min top_n (number_of_nodes g) /\
      StronglySorted
        (fun a b => (SuperspreaderInfo.score b <= SuperspreaderInfo.score a)%Q) l /\
      (forall r, In r l ->
         In (SuperspreaderInfo.id r) (Dict.keys (nodes g)) /\
         SuperspreaderInfo.out_degree r = out_degree g (SuperspreaderInfo.id r) /\
         SuperspreaderInfo.pagerank r =
           Dict.get_default (SuperspreaderInfo.id r) 0%Q (pagerank_of lib g) /\
         SuperspreaderInfo.betweenness r =
           Dict.get_default (SuperspreaderInfo.id r) 0%Q (betweenness_of lib g) /\
         (SuperspreaderInfo.score r ==
            spec_score (SuperspreaderInfo.out_degree r) (SuperspreaderInfo.pagerank r)
              (SuperspreaderInfo.betweenness r))%Q) /\
      (number_of_nodes g <= top_n ->
         forall v, In v (Dict.keys (nodes g)) ->
           exists r, In r l /\ SuperspreaderInfo.id r = v) /\
      (number_of_nodes g = 0 -> l = []) /\
      (exists rest,
         Permutation (l ++ rest) (all_records lib g) /\
         map SuperspreaderInfo.id (all_records lib g) = Dict.keys (nodes g) /\
         StronglySorted
           (fun a b => (SuperspreaderInfo.score b <= SuperspreaderInfo.score a)%Q)
           (l ++ rest) /\
         (forall a b, In a l -> In b rest ->
            (SuperspreaderInfo.score b <= SuperspreaderInfo.score a)%Q)) /\
      (NoDup (Dict.keys (nodes g)) -> NoDup (map SuperspreaderInfo.id l)).
Proof.
  intros lib graph top_n self P g.
  eexists. split; [apply find_superspreaders_run|]. fold g.
  set (sorted := stable_sort score_ge (all_records lib g)).
  pose proof (ranking_length lib g) as L. fold sorted in L.
  pose proof (ranking_sorted lib g) as S. fold sorted in S.
  split; [rewrite slice_to_length, L by exact P; reflexivity|].
  split; [apply slice_to_sorted; exact S|].
  split.
  { intros r I. apply slice_to_in, stable_sort_in in I.
    unfold all_records in I. apply in_map_iff in I as [[n a] [<- I]].
    cbn [fst snd superspreader_of SuperspreaderInfo.id SuperspreaderInfo.out_degree
         SuperspreaderInfo.pagerank SuperspreaderInfo.betweenness SuperspreaderInfo.score].
    assert (In n (Dict.keys (nodes g))) as K.
    { unfold Dict.keys. change n with (fst (n, a)). apply in_map; exact I. }
    split; [exact K|].
    split; [apply out_degree_view_get; exact K|].
    split; [reflexivity|]. split; [reflexivity|].
    apply combined_score_spec. }
  split.
  { intros Le v I. rewrite slice_to_all by lia. apply ranking_covers; exact I. }
  split.
  { intros Z0. unfold sorted. unfold number_of_nodes, Dict.len in Z0.
    unfold all_records. destruct (nodes g); [|simpl in Z0; lia].
    unfold slice_to. simpl. destruct (top_n <? 0); apply firstn_nil. }
  split.
  { exists (skipn (Z.to_nat (Zlength' (slice_to top_n sorted))) sorted).
    assert (slice_to top_n sorted ++
            skipn (Z.to_nat (Zlength' (slice_to top_n sorted))) sorted = sorted) as E.
    { rewrite (slice_to_firstn top_n sorted) at 1. apply firstn_skipn. }
    rewrite E.
    split; [symmetry; apply stable_sort_perm|].
    split; [apply all_records_ids|].
    split; [exact S|].
    apply strongly_sorted_app. rewrite E. exact S. }
  intros ND. rewrite slice_to_firstn, <- firstn_map. apply firstn_nodup.
  apply (Permutation_NoDup (l := map SuperspreaderInfo.id (all_records lib g))).
  - apply Permutation_map, stable_sort_perm.
  - rewrite all_records_ids. exact ND.
Qed.

Example demo_superspreaders :
  exists r1 r2 r3,
    find_superspreaders demo_library None 2 demo_analyzer = (Ok [r1; r2], demo_analyzer) /\
    find_superspreaders demo_library None 20 demo_analyzer = (Ok [r1; r2; r3], demo_analyzer) /\
    map SuperspreaderInfo.id [r1; r2; r3] = ["src-a"; "src-b"; "src-z"] /\
    map SuperspreaderInfo.score [r1; r2; r3] =
      [(inject_Z 1 * (4 # 10) + (5 # 10) * 100 * (4 # 10) + 0 * 10 * (2 # 10))%Q;
       (inject_Z 0 * (4 # 10) + (3 # 10) * 100 * (4 # 10) + 0 * 10 * (2 # 10))%Q;
       (inject_Z 1 * (4 # 10) + (2 # 10) * 100 * (4 # 10) + 0 * 10 * (2 # 10))%Q].
Proof. do 3 eexists. vm_compute. repeat split. Qed.

Lemma find_superspreaders_ranking_witness :
  0 <= 2 /\
  exists l,
    find_superspreaders demo_library None 2 demo_analyzer = (Ok l, demo_analyzer) /\
    Zlength' l = 2 /\
    StronglySorted
      (fun a b => (SuperspreaderInfo.score b <= SuperspreaderInfo.score a)%Q) l /\
    exists rest,
      Permutation (l ++ rest) (all_records demo_library (source_graph demo_analyzer)) /\
      forall a b, In a l -> In b rest ->
        (SuperspreaderInfo.score b <= SuperspreaderInfo.score a)%Q.
Proof.
  split; [lia|].
  destruct (find_superspreaders_ranking demo_library None (top_n := 2) demo_analyzer)
    as [l [R [L [S [_ [_ [_ [[rest [Pm [_ [_ Top]]]] _]]]]]]]]; [lia|].
  exists l. split; [exact R|]. split; [rewrite L; vm_compute; reflexivity|].
  split; [exact S|]. exists rest. split; [exact Pm | exact Top].
Defined.

(** ** Failures of the library are contained *)

Lemma zero_for_nodes_get g n : Dict.get_default n 0%Q (zero_for_nodes g) = 0%Q.
Proof.
  unfold Dict.get_default, zero_for_nodes.
  rewrite (get_tabulate (fun _ => 0%Q)).
  destruct (existsb (key_eqb n) (Dict.keys (nodes g))); reflexivity.
Qed.

Lemma detect_communities_run lib graph self :
  detect_communities lib graph self =
  (Ok (if number_of_nodes (partitioned_graph graph self) <? 2 then []
       else match best_partition lib (partitioned_graph graph self) with
            | Ok p => p
            | Raise _ => []
            end),
   self).
Proof.
  unfold detect_communities, bind, get_self. cbv zeta.
  fold (partitioned_graph graph self).
  destruct (number_of_nodes (partitioned_graph graph self) <? 2); [reflexivity|].
  unfold call, try_except.
  destruct (best_partition lib (partitioned_graph graph self)); reflexivity.
Qed.

(** C6. Whatever the library does, [find_superspreaders] and
    [detect_communities] return and leave the instance as it was.
    [find_superspreaders] still returns its full list: as many records as
    the requested size and the number of nodes allow, each for a node of
    the graph, and one for every node when the size allows it.  When
    PageRank raises, every record has pagerank 0 while betweenness is still
    the library's; when betweenness raises, every record has betweenness 0
    while pagerank is still the library's.  [detect_communities] returns
    the empty mapping on a graph with fewer than 2 nodes and when the
    partitioning raises, and the library's partition otherwise. *)
Theorem library_failures_are_contained :
  forall (lib : Library) (graph : option Graph) (top_n : Z) (self : NetworkAnalyzer),
    (exists l,
       find_superspreaders lib graph top_n self = (Ok l, self) /\
       Zlength' l =
         (if top_n <? 0 then Z.max 0 (number_of_nodes (ranked_graph graph self) + top_n)
          else Z.min top_n (number_of_nodes (ranked_graph graph self))) /\
       (forall r, In r l ->
          In (SuperspreaderInfo.id r) (Dict.keys (nodes (ranked_graph graph self)))) /\
       (number_of_nodes (ranked_graph graph self) <= top_n ->
          forall v, In v (Dict.keys (nodes (ranked_graph graph self))) ->
            exists r, In r l /\ SuperspreaderInfo.id r = v) /\
       (NoDup (Dict.keys (nodes (ranked_graph graph self))) ->
          NoDup (map SuperspreaderInfo.id l)) /\
       (forall e, nx_pagerank lib (ranked_graph graph self) 100 = Raise e ->
          forall r, In r l -> SuperspreaderInfo.pagerank r = 0%Q) /\
       (forall e, nx_betweenness_centrality lib (ranked_graph graph self) = Raise e ->
          forall r, In r l -> SuperspreaderInfo.betweenness r = 0%Q) /\
       (forall d, nx_pagerank lib (ranked_graph graph self) 100 = Ok d ->
          forall r, In r l ->
            SuperspreaderInfo.pagerank r = Dict.get_default (SuperspreaderInfo.id r) 0%Q d) /\
       (forall d, nx_betweenness_centrality lib (ranked_graph graph self) = Ok d ->
          forall r, In r l ->
            SuperspreaderInfo.betweenness r = Dict.get_default (SuperspreaderInfo.id r) 0%Q d)) /\
    (exists p,
       detect_communities lib graph self = (Ok p, self) /\
       (number_of_nodes (partitioned_graph graph self) < 2 -> p = []) /\
       (forall e, best_partition lib (partitioned_graph graph self) = Raise e -> p = []) /\
       (forall d, 2 <= number_of_nodes (partitioned_graph graph self) ->
          best_partition lib (partitioned_graph graph self) = Ok d -> p = d)).
Proof.
  intros lib graph top_n self. split.
  - eexists. split; [apply find_superspreaders_run|].
    set (g := ranked_graph graph self).
    set (sorted := stable_sort score_ge (all_records lib g)).
    assert (forall r,
      In r (slice_to top_n sorted) ->
      In (SuperspreaderInfo.id r) (Dict.keys (nodes g)) /\
      SuperspreaderInfo.pagerank r =
        Dict.get_default (SuperspreaderInfo.id r) 0%Q (pagerank_of lib g) /\
      SuperspreaderInfo.betweenness r =
        Dict.get_default (SuperspreaderInfo.id r) 0%Q (betweenness_of lib g)) as F.
    { intros r I. apply slice_to_in, stable_sort_in in I.
      unfold all_records in I. apply in_map_iff in I as [[n a] [<- I]].
      split; [|split; reflexivity].
      cbn [superspreader_of SuperspreaderInfo.id fst].
      unfold Dict.keys. change n with (fst (n, a)). apply in_map; exact I. }
    split; [rewrite slice_to_length_any; unfold sorted; rewrite ranking_length; reflexivity|].
    split; [intros r I; apply (F r I)|].
    split.
    { intros Le v I. rewrite slice_to_all by (unfold sorted; rewrite ranking_length; exact Le).
      apply ranking_covers; exact I. }
    split.
    { intros ND. rewrite slice_to_firstn, <- firstn_map. apply firstn_nodup.
      apply (Permutation_NoDup (l := map SuperspreaderInfo.id (all_records lib g))).
      - apply Permutation_map, stable_sort_perm.
      - rewrite all_records_ids. exact ND. }
    repeat split; intros x E r I; destruct (F r I) as [_ [P B]].
    + rewrite P. unfold pagerank_of. rewrite E. apply zero_for_nodes_get.
    + rewrite B. unfold betweenness_of. rewrite E. apply zero_for_nodes_get.
    + rewrite P. unfold pagerank_of. rewrite E. reflexivity.
    + rewrite B. unfold betweenness_of. rewrite E. reflexivity.
  - eexists. split; [apply detect_communities_run|].
    set (g := partitioned_graph graph self).
    repeat split.
    + intros L. apply Z.ltb_lt in L. rewrite L. reflexivity.
    + intros e E. rewrite E. destruct (number_of_nodes g <? 2); reflexivity.
    + intros d L E. apply Z.ltb_ge in L. rewrite L, E. reflexivity.
Qed.

Example demo_betweenness_failure :
  exists l,
    find_superspreaders demo_library None 20 demo_analyzer = (Ok l, demo_analyzer) /\
    map SuperspreaderInfo.id l = ["src-a"; "src-b"; "src-z"] /\
    map SuperspreaderInfo.betweenness l = [0%Q; 0%Q; 0%Q] /\
    map SuperspreaderInfo.pagerank l = [5 # 10; 3 # 10; 2 # 10].
Proof. eexists. vm_compute. repeat split. Qed.

Example demo_all_metrics_fail :
  exists l,
    find_superspreaders failing_library None 20 demo_analyzer = (Ok l, demo_analyzer) /\
    map SuperspreaderInfo.id l = ["src-a"; "src-z"; "src-b"] /\
    map SuperspreaderInfo.pagerank l = [0%Q; 0%Q; 0%Q] /\
    map SuperspreaderInfo.betweenness l = [0%Q; 0%Q; 0%Q] /\
    detect_communities failing_library None demo_analyzer = (Ok [], demo_analyzer).
Proof. eexists. vm_compute. repeat split. Qed.

(** ** Network statistics *)

Lemma get_network_stats_run lib self :
  exists st, get_network_stats lib self = (Ok st, self).
Proof.
  unfold get_network_stats, bind, get_self. cbv zeta.
  destruct (0 <? number_of_nodes (source_graph self)).
  - unfold call, try_except.
    destruct (nx_is_connected lib (to_undirected (source_graph self))); eexists; reflexivity.
  - eexists; reflexivity.
Qed.

(** C7. On a directed source graph with [n] nodes and [m] edges, the
    record of [get_network_stats] has density [m / (n (n - 1))] when
    [n >= 2] and 0 when [n < 2] (so 1/2 for two nodes and one edge);
    avg_degree is the sum over the nodes of in-degree plus out-degree
    divided by [n], and 0 when [n = 0]; is_connected is the answer of the
    library's connectivity check on the undirected projection, and [false]
    when the check raises or the graph has no node; the method never
    raises. *)
Theorem network_stats_record :
  forall (lib : Library) (self : NetworkAnalyzer),
    directed (source_graph self) = true ->
    let g := source_graph self in
    let n := number_of_nodes g in
    let m := number_of_edges g in
    exists st,
      get_network_stats lib self = (Ok st, self) /\
      NetworkStats.node_count st = n /\
      NetworkStats.edge_count st = m /\
      (2 <= n -> (NetworkStats.density st == inject_Z m / inject_Z (n * (n - 1)))%Q) /\
      (n < 2 -> NetworkStats.density st = 0%Q) /\
      (n = 2 -> m = 1 -> (NetworkStats.density st == 1 # 2)%Q) /\
      (0 < n ->
         NetworkStats.avg_degree st =
         (inject_Z (sum_Z (map (fun v => (in_degree g v + out_degree g v)%Z)
                             (Dict.keys (nodes g))))
          / inject_Z n)%Q) /\
      (n = 0 -> NetworkStats.avg_degree st = 0%Q) /\
      (0 < n ->
         NetworkStats.is_connected st =
         match nx_is_connected lib (to_undirected g) with
         | Ok b => b
         | Raise _ => false
         end) /\
      (n = 0 -> NetworkStats.is_connected st = false).
Proof.
  intros lib self D g n m.
  assert ((2 <= n -> (nx_density g == inject_Z m / inject_Z (n * (n - 1)))%Q) /\
          (n < 2 -> nx_density g = 0%Q)) as [D2 D1].
  { unfold nx_density. fold n m. fold g in D. rewrite D. split.
    - intros N2. assert ((n <=? 1) = false) as -> by (apply Z.leb_gt; lia).
      rewrite orb_false_r. destruct (m =? 0) eqn:M0; [|reflexivity].
      apply Z.eqb_eq in M0. rewrite M0. unfold Qdiv. ring.
    - intros N1. assert ((n <=? 1) = true) as -> by (apply Z.leb_le; lia).
      rewrite orb_true_r. reflexivity. }
  assert (Dict.values (degree_view g) =
          map (fun v => in_degree g v + out_degree g v) (Dict.keys (nodes g))) as DV.
  { unfold Dict.values, degree_view. rewrite map_map. reflexivity. }
  assert (Dict.len (degree_view g) = n) as DL.
  { unfold Dict.len, degree_view, n, number_of_nodes, Dict.len, Dict.keys.
    rewrite !length_map. reflexivity. }
  unfold get_network_stats, bind, get_self. cbv zeta. fold g n m.
  destruct (0 <? n) eqn:P.
  - apply Z.ltb_lt in P.
    unfold call, try_except.
    destruct (nx_is_connected lib (to_undirected g)) as [b|e];
      eexists; (split; [reflexivity|]);
      cbn [NetworkStats.node_count NetworkStats.edge_count NetworkStats.density
           NetworkStats.community_count NetworkStats.avg_degree NetworkStats.is_connected];
      rewrite DV, DL;
      (repeat split; try reflexivity; try lia; auto);
      intros N2 M1; rewrite (D2 ltac:(lia)), N2, M1; reflexivity.
  - apply Z.ltb_ge in P.
    eexists; (split; [reflexivity|]).
    cbn [NetworkStats.node_count NetworkStats.edge_count NetworkStats.density
         NetworkStats.community_count NetworkStats.avg_degree NetworkStats.is_connected].
    repeat split; try reflexivity; try lia.
Qed.

Lemma network_stats_record_witness :
  directed (source_graph two_node_analyzer) = true /\
  exists st,
    get_network_stats demo_library two_node_analyzer = (Ok st, two_node_analyzer) /\
    NetworkStats.node_count st = 2 /\
    NetworkStats.edge_count st = 1 /\
    (NetworkStats.density st == 1 # 2)%Q /\
    NetworkStats.is_connected st = true.
Proof.
  split; [reflexivity|].
  destruct (network_stats_record demo_library two_node_analyzer eq_refl)
    as [st [R [N [E [_ [_ [D [_ [_ [C _]]]]]]]]]].
  exists st. split; [exact R|]. split; [exact N|]. split; [exact E|].
  split; [apply D; reflexivity|].
  rewrite C by (vm_compute; reflexivity). vm_compute. reflexivity.
Defined.

(** ** The coordination detector *)

Lemma window_from_take_while t0 w cs :
  window_from t0 w cs = take_while (within t0 w) (filter published cs).
Proof.
  induction cs as [|c r IH]; [reflexivity|].
  cbn [window_from filter].
  destruct (Content.published_at c) as [t|] eqn:P.
  - assert (published c = true) as -> by (unfold published; rewrite P; reflexivity).
    cbn [take_while].
    assert (within t0 w c = (t - t0 <=? w)) as -> by (unfold within; rewrite P; reflexivity).
    cbv zeta. destruct (t - t0 <=? w) eqn:E.
    + rewrite IH. reflexivity.
    + apply Z.leb_gt in E.
      assert ((t - t0 >? w) = true) as -> by (apply Z.gtb_lt; lia).
      reflexivity.
  - assert (published c = false) as -> by (unfold published; rewrite P; reflexivity).
    exact IH.
Qed.

Lemma sweep_first_per_hour w m cs : forall seen,
  sweep w m seen cs = first_per_hour seen (candidates w m cs).
Proof.
  induction cs as [|c r IH]; intros seen; [reflexivity|].
  cbn [sweep candidates].
  destruct (Content.published_at c) as [t0|]; [|apply IH].
  unfold coordinated.
  destruct (m <=? Zlength' (window_from t0 w (c :: r))); [|apply IH].
  destruct (m <=? Zlength' (window_sources (window_from t0 w (c :: r)))); [|apply IH].
  cbn [andb first_per_hour]. unfold event_hour at 1. cbn [event_of CoordinatedBehaviorEvent.timestamp].
  destruct (existsb (Z.eqb (hour_key t0)) seen); [apply IH|].
  f_equal. rewrite IH. reflexivity.
Qed.

Lemma coordination_events_first_per_hour w m cs :
  coordination_events w m cs = first_per_hour [] (candidates w m cs).
Proof.
  unfold coordination_events. destruct cs; [reflexivity|].
  apply sweep_first_per_hour.
Qed.

(** The candidates are the events of the indices whose window qualifies. *)
Lemma candidates_index w m cs e :
  In e (candidates w m cs) <->
  exists i c t0,
    nth_error cs i = Some c /\
    Content.published_at c = Some t0 /\
    coordinated m (window_from t0 w (skipn i cs)) = true /\
    e = event_of t0 w (window_from t0 w (skipn i cs)).
Proof.
  induction cs as [|c r IH]; cbn [candidates].
  - simpl. split; [tauto|]. intros [i [c [t0 [N _]]]]. destruct i; discriminate.
  - split.
    + intros I.
      assert (In e (candidates w m r) ->
              exists i c0 t0, nth_error (c :: r) i = Some c0 /\
                Content.published_at c0 = Some t0 /\
                coordinated m (window_from t0 w (skipn i (c :: r))) = true /\
                e = event_of t0 w (window_from t0 w (skipn i (c :: r)))) as Tail.
      { intros J. apply IH in J as [i [c0 [t0 H]]]. exists (S i), c0, t0. exact H. }
      destruct (Content.published_at c) as [t0|] eqn:P; [|auto].
      destruct (coordinated m (window_from t0 w (c :: r))) eqn:Co; [|auto].
      destruct I as [<-|I]; [|auto].
      exists O, c, t0. simpl. auto.
    + intros [i [c0 [t0 [N [P [Co E]]]]]].
      destruct i as [|i].
      * simpl in N. inversion N; subst c0. rewrite P.
        simpl skipn in Co, E. rewrite Co. left. symmetry; exact E.
      * assert (In e (candidates w m r)) as J.
        { apply IH. exists i, c0, t0. auto. }
        destruct (Content.published_at c) as [t1|]; [|exact J].
        destruct (coordinated m (window_from t1 w (c :: r))); [right|]; exact J.
Qed.

(** Facts about the hour buckets. *)
Lemma first_per_hour_fresh seen events e :
  In e (first_per_hour seen events) -> ~ In (event_hour e) seen.
Proof.
  revert seen. induction events as [|x r IH]; intros seen; simpl; [tauto|].
  destruct (existsb (Z.eqb (event_hour x)) seen) eqn:X.
  - apply IH.
  - intros [<-|I].
    + intros J. assert (existsb (Z.eqb (event_hour x)) seen = true); [|congruence].
      apply existsb_exists. exists (event_hour x). split; [exact J | apply Z.eqb_refl].
    + intros J. apply (IH _ I). right; exact J.
Qed.

Lemma first_per_hour_nodup events : forall seen,
  NoDup (map event_hour (first_per_hour seen events)).
Proof.
  induction events as [|x r IH]; intros seen; simpl; [constructor|].
  destruct (existsb (Z.eqb (event_hour x)) seen); [apply IH|].
  simpl. constructor; [|apply IH].
  intros I. apply in_map_iff in I as [e [Eh I]].
  apply first_per_hour_fresh in I. apply I. left. symmetry; exact Eh.
Qed.

(** An event is kept exactly when it is a candidate that no earlier
    candidate (and no hour of [seen]) shares its hour with. *)
Lemma first_per_hour_in events : forall seen e,
  In e (first_per_hour seen events) <->
  exists before after,
    events = before ++ e :: after /\
    ~ In (event_hour e) seen /\
    forall e', In e' before -> event_hour e' <> event_hour e.
Proof.
  induction events as [|x r IH]; intros seen e; simpl.
  - split; [tauto|]. intros [b [a [E _]]]. destruct b; discriminate.
  - destruct (existsb (Z.eqb (event_hour x)) seen) eqn:X.
    + rewrite IH. split.
      * intros [b [a [E [F N]]]]. exists (x :: b), a. subst r.
        split; [reflexivity|]. split; [exact F|].
        intros e' [<-|I]; [|auto].
        intros Eq. apply F. apply existsb_exists in X as [h [Ih Eh]].
        apply Z.eqb_eq in Eh. congruence.
      * intros [b [a [E [F N]]]]. destruct b as [|y b]; simpl in E; inversion E; subst.
        -- exfalso. apply F. apply existsb_exists in X as [h [Ih Eh]].
           apply Z.eqb_eq in Eh. congruence.
        -- exists b, a. split; [reflexivity|]. split; [exact F|].
           intros e' I. apply N. right; exact I.
    + assert (~ In (event_hour x) seen) as NX.
      { intros J. assert (existsb (Z.eqb (event_hour x)) seen = true); [|congruence].
        apply existsb_exists. exists (event_hour x). split; [exact J | apply Z.eqb_refl]. }
      simpl. rewrite IH. split.
      * intros [<-|[b [a [E [F N]]]]].
        -- exists [], r. split; [reflexivity|]. split; [exact NX|]. simpl; tauto.
        -- exists (x :: b), a. subst r. split; [reflexivity|].
           split; [simpl in F; tauto|].
           intros e' [<-|I]; [simpl in F; intros Eq; apply F; left; exact Eq | auto].
      * intros [b [a [E [F N]]]]. destruct b as [|y b]; simpl in E; inversion E; subst.
        -- left; reflexivity.
        -- right. exists b, a. split; [reflexivity|]. split.
           ++ simpl. intros [Eq|J]; [|tauto]. apply (N y); [left; reflexivity | exact Eq].
           ++ intros e' I. apply N. right; exact I.
Qed.

Lemma three_items_events c1 c2 c3 :
  burst_of_three c1 c2 c3 ->
  coordination_events 30 3 [c1; c2; c3] =
  if 3 <=? Zlength' (window_sources [c1; c2; c3])
  then [event_of 0 30 [c1; c2; c3]] else [].
Proof.
  intros [P1 [P2 P3]].
  destruct c1 as [i1 s1 p1], c2 as [i2 s2 p2], c3 as [i3 s3 p3].
  simpl in P1, P2, P3. subst p1 p2 p3.
  unfold coordination_events.
  cbn -[window_sources event_of].
  destruct (3 <=? Zlength' (window_sources
     [Content.mk i1 s1 (Some 0); Content.mk i2 s2 (Some 10); Content.mk i3 s3 (Some 20)]));
    reflexivity.
Qed.

Lemma window_sources_nodup win : NoDup (window_sources win).
Proof. apply distinct_nodup. Qed.

Lemma window_sources_in win s :
  In s (window_sources win) <->
  s <> "" /\ exists c, In c win /\ Content.source_id c = Some s.
Proof.
  unfold window_sources. rewrite distinct_in, in_flat_map. split.
  - intros [c [I J]]. destruct (Content.source_id c) as [s'|] eqn:S; [|destruct J].
    unfold truthy_str in J. destruct (s' =? "")%string eqn:E; simpl in J; [destruct J|].
    destruct J as [<-|[]]. apply String.eqb_neq in E. split; [exact E|].
    exists c. auto.
  - intros [N [c [I S]]]. exists c. split; [exact I|]. rewrite S.
    unfold truthy_str. apply String.eqb_neq in N. rewrite N. left; reflexivity.
Qed.

Lemma event_ids_at_most_10 t0 w win :
  (List.length (CoordinatedBehaviorEvent.content_ids (event_of t0 w win)) <= 10)%nat.
Proof.
  unfold event_of. cbn [CoordinatedBehaviorEvent.content_ids].
  rewrite length_map. apply firstn_le_length.
Qed.

Example three_sources_one_event :
  coordination_events 30 3 three_sources =
  [ CoordinatedBehaviorEvent.mk 0 3 3 30 ["p1"; "p2"; "p3"] ].
Proof. vm_compute. reflexivity. Qed.

Example two_sources_no_event : coordination_events 30 3 two_sources = [].
Proof. vm_compute. reflexivity. Qed.

(** C4. The window of an anchor is grown over the items that follow it
    while their distance to the anchor is at most window_seconds and stops
    at the first one farther away.  The detector reports, subject to the
    hour deduplication, the events of the indices [i] whose window holds at
    least min_actors items from at least min_actors distinct sources; such
    an event is anchored at item [i]'s timestamp and records the number of
    items, the number of distinct sources and at most 10 content ids.  For
    items at 0 s, 10 s and 20 s with window 30 and min_actors 3: from three
    distinct sources exactly one event, with content_count 3 and
    unique_sources 3; from two distinct sources no event. *)
Theorem coordination_detector_events :
  forall (w m : Z) (cs : list Content.t),
    (forall t0 rest,
       window_from t0 w rest = take_while (within t0 w) (filter published rest)) /\
    coordination_events w m cs = first_per_hour [] (candidates w m cs) /\
    (forall e,
       In e (candidates w m cs) <->
       exists i c t0,
         nth_error cs i = Some c /\
         Content.published_at c = Some t0 /\
         let win := window_from t0 w (skipn i cs) in
         m <= Zlength' win /\
         m <= Zlength' (window_sources win) /\
         e = event_of t0 w win) /\
    (forall t0 win,
       let e := event_of t0 w win in
       CoordinatedBehaviorEvent.timestamp e = t0 /\
       CoordinatedBehaviorEvent.content_count e = Zlength' win /\
       CoordinatedBehaviorEvent.unique_sources e = Zlength' (window_sources win) /\
       CoordinatedBehaviorEvent.window_seconds e = w /\
       CoordinatedBehaviorEvent.content_ids e = map Content.id (firstn 10 win) /\
       (List.length (CoordinatedBehaviorEvent.content_ids e) <= 10)%nat) /\
    (forall win,
       NoDup (window_sources win) /\
       forall s, In s (window_sources win) <->
                 s <> "" /\ exists c, In c win /\ Content.source_id c = Some s) /\
    (forall c1 c2 c3,
       burst_of_three c1 c2 c3 ->
       (Zlength' (window_sources [c1; c2; c3]) = 3 ->
        coordination_events 30 3 [c1; c2; c3] =
        [CoordinatedBehaviorEvent.mk 0 3 3 30 (map Content.id [c1; c2; c3])]) /\
       (Zlength' (window_sources [c1; c2; c3]) = 2 ->
        coordination_events 30 3 [c1; c2; c3] = [])).
Proof.
  intros w m cs.
  split; [intros; apply window_from_take_while|].
  split; [apply coordination_events_first_per_hour|].
  split.
  { intros e. rewrite candidates_index. unfold coordinated.
    split; intros [i [c [t0 [N [P H]]]]]; exists i, c, t0; (split; [exact N|]);
      (split; [exact P|]); cbv zeta in *.
    - destruct H as [Co E]. apply andb_true_iff in Co as [A B].
      apply Z.leb_le in A, B. auto.
    - destruct H as [A [B E]]. split; [|exact E].
      apply andb_true_iff. split; apply Z.leb_le; assumption. }
  split.
  { intros t0 win. cbv zeta. repeat split. apply event_ids_at_most_10. }
  split.
  { intros win. split; [apply window_sources_nodup | apply window_sources_in]. }
  intros c1 c2 c3 B. rewrite (three_items_events B). unfold event_of.
  split; intros ->; reflexivity.
Qed.

Lemma first_per_hour_covers events : forall seen e,
  In e events ->
  In (event_hour e) seen \/
  exists e', In e' (first_per_hour seen events) /\ event_hour e' = event_hour e.
Proof.
  induction events as [|x r IH]; intros seen e I; [destruct I|].
  simpl. destruct (existsb (Z.eqb (event_hour x)) seen) eqn:X.
  - destruct I as [<-|I]; [|apply IH; exact I].
    left. apply existsb_exists in X as [h [Ih Eh]].
    apply Z.eqb_eq in Eh. congruence.
  - destruct I as [<-|I].
    + right. exists x. split; [left|]; reflexivity.
    + destruct (IH (event_hour x :: seen) e I) as [[Eq|J]|[e' [J Eq]]].
      * right. exists x. split; [left; reflexivity | exact Eq].
      * left; exact J.
      * right. exists e'. split; [right; exact J | exact Eq].
Qed.

(** ** Deduplication of the reported events *)

(** C2, as stated, fails: on a burst that straddles an hour boundary the
    sweep reports the burst at its first item and reports again the
    sub-window that starts at the third item, which lies inside the window
    already matched; a sweep that jumped past the matched window would
    report the burst once. *)
Lemma overlapping_window_reported_twice :
  coordination_events 300 3 straddling_burst =
    [ CoordinatedBehaviorEvent.mk 3590 5 5 300 ["b1"; "b2"; "b3"; "b4"; "b5"];
      CoordinatedBehaviorEvent.mk 3600 3 3 300 ["b3"; "b4"; "b5"] ] /\
  skip_ahead_events 300 3 straddling_burst =
    [ CoordinatedBehaviorEvent.mk 3590 5 5 300 ["b1"; "b2"; "b3"; "b4"; "b5"] ].
Proof. split; vm_compute; reflexivity. Qed.

(** C2, amended.  The reported events are the candidate events (one per
    index of the sequence whose window passes the two tests: every index is
    tried as an anchor, in order, whether or not an earlier window covered
    it) bucketed by the hour of the anchor timestamp: no two reported
    events fall in the same hour, and a candidate is reported exactly when
    no earlier candidate falls in its hour. *)
Theorem events_first_per_hour_bucket :
  forall (w m : Z) (cs : list Content.t),
    NoDup (map event_hour (coordination_events w m cs)) /\
    (forall e,
       In e (coordination_events w m cs) <->
       exists before after,
         candidates w m cs = before ++ e :: after /\
         forall e', In e' before -> event_hour e' <> event_hour e) /\
    (forall i c t0,
       nth_error cs i = Some c ->
       Content.published_at c = Some t0 ->
       coordinated m (window_from t0 w (skipn i cs)) = true ->
       In (event_of t0 w (window_from t0 w (skipn i cs))) (candidates w m cs)) /\
    (forall e, In e (candidates w m cs) ->
       exists e', In e' (coordination_events w m cs) /\ event_hour e' = event_hour e).
Proof.
  intros w m cs. rewrite coordination_events_first_per_hour.
  split; [apply first_per_hour_nodup|].
  assert (forall e,
    In e (first_per_hour [] (candidates w m cs)) <->
    exists before after,
      candidates w m cs = before ++ e :: after /\
      forall e', In e' before -> event_hour e' <> event_hour e) as Char.
  { intros e. rewrite first_per_hour_in. split.
    - intros [b [a [E [_ N]]]]. exists b, a. auto.
    - intros [b [a [E N]]]. exists b, a. simpl. tauto. }
  split; [exact Char|]. split.
  - intros i c t0 N P Co. apply candidates_index. exists i, c, t0. auto.
  - intros e I.
    destruct (first_per_hour_covers (candidates w m cs) [] e I) as [[]|H]; exact H.
Qed.

(** ** The content graph *)

(** A link is skipped exactly when its score is present, is not zero and
    is below the threshold. *)
Lemma below_threshold_iff min_similarity p :
  below_threshold min_similarity p = true <->
  exists s, Propagation.similarity_score p = Some s /\
            ~ (s == 0)%Q /\ (s < min_similarity)%Q.
Proof.
  unfold below_threshold, truthy_Q.
  destruct (Propagation.similarity_score p) as [s|].
  - rewrite andb_true_iff, !negb_true_iff. split.
    + intros [Z L]. exists s. split; [reflexivity|]. split.
      * intros E. apply Qeq_bool_iff in E. congruence.
      * apply Qnot_le_lt. intros Le. apply Qle_bool_iff in Le. congruence.
    + intros [s' [E [Z L]]]. inversion E; subst s'. split.
      * destruct (Qeq_bool s 0) eqn:B; [|reflexivity].
        apply Qeq_bool_iff in B. contradiction.
      * destruct (Qle_bool min_similarity s) eqn:B; [|reflexivity].
        apply Qle_bool_iff in B. exfalso. apply (Qlt_not_le _ _ L B).
  - split; [discriminate|]. intros [s [E _]]. discriminate.
Qed.

(** The guard tests the score by truthiness: a score that is present and
    equal to 0.0 is not below any threshold. *)
Example zero_score_passes_the_guard :
  below_threshold (1 # 2) (Propagation.mk "x" "y" "similar" (Some 0%Q) false (Some 60) 0) = false.
Proof. reflexivity. Qed.

(** C5, the defect.  [build_content_graph] never reaches its loop: after
    clearing the content graph it raises [AttributeError] in the query, on
    every store and for every threshold, and leaves the content graph
    empty.  On the demo store the window holds a link from [c1] to [c2]
    with similarity 0.9, which the threshold 0.5 does not skip: the
    specification asks for an edge from [c1] to [c2], and the graph left
    has neither node nor edge. *)
Theorem content_graph_edges_never_built :
  (forall (self : NetworkAnalyzer) (now days_back : Z) (min_similarity : Q),
     build_content_graph now days_back min_similarity self =
       (Raise AttributeError,
        mkAnalyzer (session self) (clear (content_graph self)) (source_graph self))) /\
  (let link := Propagation.mk "c1" "c2" "forward" (Some (9 # 10)) false (Some 10) 500 in
   In link (propagations_since demo_store (1000 - days 1)) /\
   below_threshold (1 # 2) link = false) /\
  (let g := content_graph (left_by (build_content_graph 1000 1 (1 # 2)) (init demo_store)) in
   number_of_nodes g = 0 /\
   number_of_edges g = 0 /\
   get_edge_data g "c1" "c2" = None).
Proof.
  split; [intros; apply build_content_graph_run|].
  split; cbv zeta.
  - split; [left; reflexivity | reflexivity].
  - repeat split.
Qed.

(** ** The full run *)

Lemma get_network_stats_community_count lib self st self' :
  get_network_stats lib self = (Ok st, self') -> NetworkStats.community_count st = 0.
Proof.
  unfold get_network_stats, bind, get_self. cbv zeta.
  destruct (0 <? number_of_nodes (source_graph self)).
  - unfold call, try_except.
    destruct (nx_is_connected lib (to_undirected (source_graph self)));
      intros E; inversion E; reflexivity.
  - intros E; inversion E; reflexivity.
Qed.

(** C8, the defect.  [get_network_stats] takes nothing but the instance and
    returns a record whose community_count is 0, whatever the graph and
    the library, although [dto.py] documents the field as the number of
    communities.  On the demo graph [detect_communities] finds a
    partition with two distinct communities while the stats record of the
    same instance says 0.  No full run gets as far as either of them: it
    raises in its first step. *)
Theorem stats_community_count_is_zero :
  (forall (lib : Library) (self : NetworkAnalyzer),
     exists st,
       get_network_stats lib self = (Ok st, self) /\
       NetworkStats.community_count st = 0) /\
  (exists st p,
     get_network_stats demo_library demo_analyzer = (Ok st, demo_analyzer) /\
     detect_communities demo_library None demo_analyzer = (Ok p, demo_analyzer) /\
     Zlength' (distinct (Dict.values p)) = 2 /\
     NetworkStats.node_count st = 3 /\
     NetworkStats.community_count st = 0) /\
  (forall (lib : Library) (fs : FileSystem) (now days_back : Z) (self : NetworkAnalyzer),
     fst (run_full_analysis lib fs now days_back self) = Raise AttributeError).
Proof.
  split; [|split].
  - intros lib self. destruct (get_network_stats_run lib self) as [st Hst].
    exists st. split; [exact Hst|].
    eapply get_network_stats_community_count; exact Hst.
  - do 2 eexists. vm_compute. repeat split.
  - intros. rewrite run_full_analysis_run. reflexivity.
Qed.

(** ** Two runs in a row *)

(** C9, the defect.  A full run stops in its first step: it clears the
    content graph, raises [AttributeError], and returns no report; the
    source graph is not touched, not even cleared.  A second run does the
    same, whatever the clock and the library.  On the demo store the run
    leaves both graphs without nodes, although the store has two active
    sources and five links; on an instance whose source graph was filled
    before the run, that graph is still there after it. *)
Theorem full_analysis_raises_before_building :
  (forall (lib : Library) (fs : FileSystem) (now days_back : Z) (self : NetworkAnalyzer),
     let after := mkAnalyzer (session self) (clear (content_graph self)) (source_graph self) in
     run_full_analysis lib fs now days_back self = (Raise AttributeError, after) /\
     forall (lib' : Library) (fs' : FileSystem) (now' : Z),
       run_full_analysis lib' fs' now' days_back after = (Raise AttributeError, after)) /\
  (run_full_analysis demo_library demo_fs 1000 1 (init demo_store) =
     (Raise AttributeError, init demo_store) /\
   map Source.id (active_sources demo_store) = ["src-a"; "src-b"] /\
   Zlength' (propagations_since demo_store (1000 - days 1)) = 5) /\
  source_graph (left_by (run_full_analysis demo_library demo_fs 1000 1) demo_analyzer) =
    demo_graph.
Proof.
  split; [|split; [repeat split|reflexivity]].
  intros lib fs now days_back self after.
  split; [apply run_full_analysis_run|].
  intros lib' fs' now'. rewrite run_full_analysis_run. reflexivity.
Qed.

(** ** The nodes of the source graph *)

Lemma ensure_node_get n m d :
  Dict.get n (ensure_node m d) =
  match Dict.get n d with
  | Some a => Some a
  | None => if key_eqb n m then Some [] else None
  end.
Proof.
  unfold ensure_node, Dict.mem.
  destruct (Dict.get m d) eqn:M.
  - destruct (Dict.get n d) eqn:N; [reflexivity|].
    destruct (key_eqb n m) eqn:E; [|reflexivity].
    apply key_eqb_eq in E. congruence.
  - rewrite DictFacts.get_set. destruct (key_eqb n m) eqn:E.
    + apply key_eqb_eq in E. subst. rewrite M. reflexivity.
    + destruct (Dict.get n d); reflexivity.
Qed.

Lemma ensure_node_nodup m d : NoDup (Dict.keys d) -> NoDup (Dict.keys (ensure_node m d)).
Proof.
  unfold ensure_node. destruct (Dict.mem m d); [auto | apply DictFacts.nodup_set].
Qed.

Lemma add_edge_nodes_get n u v a g :
  Dict.get n (nodes (add_edge u v a g)) =
  match Dict.get n (nodes g) with
  | Some x => Some x
  | None => if endpoint_of n (u, v) then Some [] else None
  end.
Proof.
  unfold add_edge, endpoint_of. cbn [nodes fst snd].
  rewrite !ensure_node_get.
  destruct (Dict.get n (nodes g)); [reflexivity|].
  destruct (key_eqb n u); reflexivity.
Qed.

Lemma add_source_nodes_keys sources : forall g n,
  In n (Dict.keys (nodes (add_source_nodes sources g))) <->
  In n (Dict.keys (nodes g)) \/ In n (map Source.id sources).
Proof.
  unfold add_source_nodes.
  induction sources as [|s l IH]; intros g n; simpl; [tauto|].
  rewrite IH. unfold add_node at 1. cbn [nodes].
  rewrite DictFacts.in_keys_set. intuition.
Qed.

Lemma add_source_nodes_nodup sources : forall g,
  NoDup (Dict.keys (nodes g)) -> NoDup (Dict.keys (nodes (add_source_nodes sources g))).
Proof.
  unfold add_source_nodes.
  induction sources as [|s l IH]; intros g ND; [exact ND|].
  apply IH. unfold add_node. cbn [nodes]. apply DictFacts.nodup_set, ND.
Qed.

Lemma get_some_iff_in_keys {K V} `{Hashable K} (k : K) (d : Dict.t K V) :
  In k (Dict.keys d) <-> exists v, Dict.get k d = Some v.
Proof.
  rewrite <- DictFacts.mem_iff. unfold Dict.mem.
  destruct (Dict.get k d) as [v|]; split; try discriminate; eauto.
  intros [v E]; discriminate.
Qed.

(** The record of a node without attributes carries the defaults. *)
Lemma superspreader_of_defaults od pr bt n :
  let r := superspreader_of od pr bt n [] in
  SuperspreaderInfo.name r = VStr n /\
  SuperspreaderInfo.source_type r = VStr "unknown" /\
  SuperspreaderInfo.is_doppelganger r = VBool false.
Proof. repeat split. Qed.

(** The nodes [build_source_graph] leaves are those of the active sources. *)
Lemma source_graph_left_nodes now days_back self n :
  In n (Dict.keys (nodes (source_graph (left_by (build_source_graph now days_back) self)))) <->
  In n (map Source.id (active_sources (session self))).
Proof.
  unfold left_by. rewrite build_source_graph_run. cbn [snd source_graph].
  rewrite add_source_nodes_keys. cbn [clear nodes Dict.keys map]. simpl. tauto.
Qed.

(** C10, the defect and what holds.  The method raises before any edge is
    added, so the nodes of the source graph it leaves are the active
    sources and nothing else: an inactive source that takes part in
    propagation never becomes a node.  On the demo store the retired
    source [src-z] owns content that one link of the window carries to
    content of [src-a], and [src-z] is not a node.
    The second half of the claim holds: for a node without attributes
    (as [add_edge] creates one) [find_superspreaders] emits, when the
    requested size admits every node, a record with name = the node id,
    source_type = "unknown" and is_doppelganger = false, and every record
    it returns for such a node carries these defaults. *)
Theorem inactive_endpoint_never_becomes_node :
  (forall (self : NetworkAnalyzer) (now days_back : Z),
     let self' := left_by (build_source_graph now days_back) self in
     build_source_graph now days_back self = (Raise AttributeError, self') /\
     edges (source_graph self') = [] /\
     forall n, In n (Dict.keys (nodes (source_graph self'))) <->
               In n (map Source.id (active_sources (session self)))) /\
  (links_between demo_store (propagations_since demo_store (1000 - days 1)) "src-z" "src-a" = 1 /\
   Dict.keys (nodes (source_graph (left_by (build_source_graph 1000 1) (init demo_store)))) =
     ["src-a"; "src-b"]) /\
  (forall (lib : Library) (graph : option Graph) (top_n : Z) (self : NetworkAnalyzer)
          (n : string),
     let g := ranked_graph graph self in
     NoDup (Dict.keys (nodes g)) ->
     Dict.get n (nodes g) = Some [] ->
     exists l,
       find_superspreaders lib graph top_n self = (Ok l, self) /\
       (forall r, In r l -> SuperspreaderInfo.id r = n ->
          SuperspreaderInfo.name r = VStr n /\
          SuperspreaderInfo.source_type r = VStr "unknown" /\
          SuperspreaderInfo.is_doppelganger r = VBool false) /\
       (number_of_nodes g <= top_n ->
          exists r, In r l /\ SuperspreaderInfo.id r = n /\
            SuperspreaderInfo.name r = VStr n /\
            SuperspreaderInfo.source_type r = VStr "unknown" /\
            SuperspreaderInfo.is_doppelganger r = VBool false)) /\
  (Dict.get "src-z" (nodes demo_graph) = Some [] /\
   exists l,
     find_superspreaders demo_library None 20 demo_analyzer = (Ok l, demo_analyzer) /\
     map (fun r => (SuperspreaderInfo.id r, SuperspreaderInfo.name r,
                    SuperspreaderInfo.source_type r, SuperspreaderInfo.is_doppelganger r)) l =
       [ ("src-a", VStr "Alpha", VStr "telegram", VBool true);
         ("src-b", VStr "Beta", VStr "media", VBool false);
         ("src-z", VStr "src-z", VStr "unknown", VBool false) ]).
Proof.
  split; [|split; [|split]].
  - intros self now days_back self'. unfold self', left_by.
    rewrite build_source_graph_run. cbn [snd source_graph].
    split; [reflexivity|].
    split; [rewrite add_source_nodes_edges; reflexivity|].
    intros n. apply (source_graph_left_nodes now days_back self n).
  - split; vm_compute; reflexivity.
  - intros lib graph top_n self n g ND G.
    eexists. split; [apply find_superspreaders_run|]. fold g.
    assert (forall r, In r (stable_sort score_ge (all_records lib g)) ->
              SuperspreaderInfo.id r = n ->
              SuperspreaderInfo.name r = VStr n /\
              SuperspreaderInfo.source_type r = VStr "unknown" /\
              SuperspreaderInfo.is_doppelganger r = VBool false) as D.
    { intros r I Id. apply stable_sort_in in I.
      unfold all_records in I. apply in_map_iff in I as [[n' a] [<- I]].
      cbn [fst snd superspreader_of SuperspreaderInfo.id] in Id. subst n'.
      apply (DictFacts.in_get_nodup _ _ _ ND) in I. rewrite I in G.
      inversion G; subst a. apply superspreader_of_defaults. }
    split.
    + intros r I Id. apply D; [|exact Id]. eapply slice_to_in; exact I.
    + intros Le. rewrite slice_to_all by (rewrite ranking_length; exact Le).
      destruct (ranking_covers lib g n) as [r [I Id]].
      { apply get_some_iff_in_keys. eauto. }
      exists r. split; [exact I|]. split; [exact Id|]. apply D; assumption.
  - split; [reflexivity|]. eexists. vm_compute. split; reflexivity.
Qed.

(** ** Checks on small inputs *)

Example empty_graph_stats :
  get_network_stats demo_library (init (Store.mk [] [] [])) =
  (Ok (NetworkStats.mk 0 0 0 0 0 false), init (Store.mk [] [] [])).
Proof. reflexivity. Qed.

Example isolated_node_not_connected :
  exists st s,
    get_network_stats demo_library
      (mkAnalyzer (Store.mk [] [] []) DiGraph (add_node "src3" [] two_node_graph)) =
      (Ok st, s) /\
    NetworkStats.node_count st = 3 /\
    NetworkStats.edge_count st = 1 /\
    NetworkStats.density st = (1 # 6)%Q /\
    NetworkStats.avg_degree st = (2 # 3)%Q /\
    NetworkStats.is_connected st = false.
Proof. do 2 eexists. vm_compute. repeat split. Qed.

Example demo_graph_value :
  demo_graph =
  mkGraph true
    [ ("src-a", [ ("name", VStr "Alpha"); ("source_type", VStr "telegram");
                  ("language", VStr "fr"); ("is_doppelganger", VBool true);
                  ("is_amplifier", VBool false) ]);
      ("src-b", [ ("name", VStr "Beta"); ("source_type", VStr "media");
                  ("language", VStr "unknown"); ("is_doppelganger", VBool false);
                  ("is_amplifier", VBool true) ]);
      ("src-z", []) ]
    [ (("src-a", "src-b"), [("weight", VInt 2)]);
      (("src-z", "src-a"), [("weight", VInt 1)]) ].
Proof. vm_compute. reflexivity. Qed.

Example empty_store_run_raises :
  run_full_analysis failing_library demo_fs 1000 30 (init (Store.mk [] [] [])) =
  (Raise AttributeError, init (Store.mk [] [] [])).
Proof. reflexivity. Qed.

Example stats_after_the_builder_raised :
  exists st,
    get_network_stats demo_library (left_by (build_source_graph 1000 1) (init demo_store)) =
      (Ok st, left_by (build_source_graph 1000 1) (init demo_store)) /\
    NetworkStats.node_count st = 2 /\
    NetworkStats.edge_count st = 0 /\
    NetworkStats.density st = 0%Q /\
    (NetworkStats.avg_degree st == 0)%Q /\
    NetworkStats.is_connected st = false.
Proof. eexists. vm_compute. repeat split. Qed.

(** * Further properties *)

(** ** Sums *)

Lemma fold_left_add_acc (l : list Z) : forall a, fold_left Z.add l a = a + sum_Z l.
Proof.
  unfold sum_Z. induction l as [|x l IH]; intros a; simpl; [lia|].
  rewrite IH, (IH x). lia.
Qed.

Lemma sum_Z_cons x l : sum_Z (x :: l) = x + sum_Z l.
Proof. unfold sum_Z at 1. simpl. apply fold_left_add_acc. Qed.

Lemma sum_Z_app l1 l2 : sum_Z (l1 ++ l2) = sum_Z l1 + sum_Z l2.
Proof.
  induction l1 as [|x l IH]; simpl; [reflexivity|].
  rewrite !sum_Z_cons, IH. lia.
Qed.


(** ** Propagation patterns *)


(** ** What the builders leave behind *)



(** ** Counting edges and degrees *)

Lemma sum_Z_map_add {A} (f g : A -> Z) l :
  sum_Z (map (fun x => f x + g x) l) = sum_Z (map f l) + sum_Z (map g l).
Proof.
  induction l as [|x l IH]; [reflexivity|].
  cbn [map]. rewrite !sum_Z_cons, IH. lia.
Qed.

Lemma sum_Z_indicator (x : string) l :
  NoDup l ->
  sum_Z (map (fun n => if key_eqb x n then 1 else 0) l) = if existsb (key_eqb x) l then 1 else 0.
Proof.
  induction 1 as [|y l NI ND IH]; [reflexivity|].
  cbn [map existsb]. rewrite sum_Z_cons, IH.
  destruct (key_eqb x y) eqn:E; [|reflexivity].
  apply key_eqb_eq in E. subst y.
  destruct (existsb (key_eqb x) l) eqn:X; [|reflexivity].
  apply existsb_key_in in X. contradiction.
Qed.

(** Each edge is counted once at the node [pr] sends it to. *)
Lemma sum_degrees (pr : string * string -> string) (ns : list string)
    (es : list (string * string)) :
  NoDup ns ->
  (forall e, In e es -> In (pr e) ns) ->
  sum_Z (map (fun n => Zlength' (filter (fun e => key_eqb (pr e) n) es)) ns) = Zlength' es.
Proof.
  intros ND. induction es as [|e es IH]; intros I.
  - cbn [filter]. unfold Zlength'. simpl. clear ND I.
    induction ns as [|n ns IHn]; [reflexivity|].
    cbn [map]. rewrite sum_Z_cons, IHn. reflexivity.
  - rewrite (map_ext _ (fun n => (if key_eqb (pr e) n then 1 else 0) +
                                 Zlength' (filter (fun e => key_eqb (pr e) n) es))).
    + rewrite sum_Z_map_add.
      rewrite IH by (intros; apply I; right; assumption).
      rewrite sum_Z_indicator by exact ND. rewrite Zlength'_cons.
      assert (existsb (key_eqb (pr e)) ns = true) as ->.
      { apply existsb_key_in, I. left; reflexivity. }
      lia.
    + intros n. cbn [filter]. destruct (key_eqb (pr e) n); [rewrite Zlength'_cons|]; lia.
Qed.

Lemma in_ordered_pairs l a b :
  In (a, b) (ordered_pairs l) <-> In a l /\ In b l /\ a <> b.
Proof.
  unfold ordered_pairs. rewrite in_flat_map. split.
  - intros [x [Ix J]]. apply in_map_iff in J as [y [E J]].
    inversion E; subst. apply filter_In in J as [Iy N].
    apply negb_true_iff, key_eqb_neq in N. auto.
  - intros [Ia [Ib N]]. exists a. split; [exact Ia|].
    apply in_map, filter_In. split; [exact Ib|].
    apply negb_true_iff, key_eqb_neq. exact N.
Qed.

Lemma filter_others_length (a : string) l :
  NoDup l -> In a l ->
  Zlength' (filter (fun b => negb (key_eqb a b)) l) = Zlength' l - 1.
Proof.
  induction 1 as [|x l NI ND IH]; intros I; [destruct I|].
  cbn [filter]. destruct (key_eqb a x) eqn:E.
  - apply key_eqb_eq in E. subst x. cbn [negb]. rewrite Zlength'_cons.
    assert (filter (fun b => negb (key_eqb a b)) l = l) as ->; [|lia].
    clear IH ND I. induction l as [|y l IHl]; [reflexivity|].
    cbn [filter]. destruct (key_eqb a y) eqn:Ey.
    + apply key_eqb_eq in Ey. subst y. exfalso. apply NI. left; reflexivity.
    + cbn [negb]. rewrite IHl; [reflexivity|]. intros J. apply NI. right; exact J.
  - cbn [negb]. rewrite !Zlength'_cons, IH; [lia|].
    destruct I as [->|I]; [|exact I].
    rewrite key_eqb_refl in E. discriminate.
Qed.

Lemma ordered_pairs_length l :
  NoDup l -> Zlength' (ordered_pairs l) = Zlength' l * (Zlength' l - 1).
Proof.
  intros ND. unfold ordered_pairs.
  assert (forall l', incl l' l ->
            Zlength' (flat_map (fun a => map (pair a)
                        (filter (fun b => negb (key_eqb a b)) l)) l') =
            Zlength' l' * (Zlength' l - 1)) as G.
  { induction l' as [|a l' IH]; intros I; [reflexivity|].
    cbn [flat_map]. unfold Zlength' in *. rewrite length_app, length_map.
    rewrite Nat2Z.inj_add, IH by (intros x J; apply I; right; exact J).
    pose proof (@filter_others_length a l ND (I a (or_introl eq_refl))) as F.
    unfold Zlength' in F. rewrite F. simpl List.length. lia. }
  apply G. apply incl_refl.
Qed.

(** A graph without self-loops whose edges join nodes has at most
    [n (n - 1)] edges. *)
Lemma edges_at_most_pairs (ns : list string) (es : list (string * string)) :
  NoDup ns -> NoDup es ->
  (forall a b, In (a, b) es -> In a ns /\ In b ns /\ a <> b) ->
  Zlength' es <= Zlength' ns * (Zlength' ns - 1).
Proof.
  intros NN NE I. rewrite <- ordered_pairs_length by exact NN.
  unfold Zlength'. apply inj_le. apply NoDup_incl_length; [exact NE|].
  intros [a b] J. apply in_ordered_pairs. apply I. exact J.
Qed.

(** ** Graphs as networkx keeps them *)

Lemma nx_graph_empty : nx_graph DiGraph.
Proof.
  unfold nx_graph. cbn. repeat split; try constructor; intros; contradiction.
Qed.

Lemma in_set {K V} `{Hashable K} (k k' : K) (v v' : V) (d : Dict.t K V) :
  In (k', v') (Dict.set k v d) -> (k', v') = (k, v) \/ In (k', v') d.
Proof.
  induction d as [|[k0 v0] r IH]; simpl.
  - intros [E|[]]. left. symmetry; exact E.
  - destruct (key_eqb k k0) eqn:E; simpl.
    + apply key_eqb_eq in E. subst k0. intros [X|I]; [left; symmetry; exact X | auto].
    + intros [X|I]; [auto|]. destruct (IH I); auto.
Qed.

Lemma default_attrs_nodup (o : option attrs) :
  (forall a, o = Some a -> NoDup (Dict.keys a)) ->
  NoDup (Dict.keys (match o with Some v => v | None => [] end)).
Proof. intros G. destruct o as [a|]; [apply G; reflexivity | constructor]. Qed.

Lemma ensure_node_keys n m d :
  In n (Dict.keys (ensure_node m d)) <-> n = m \/ In n (Dict.keys d).
Proof.
  unfold ensure_node. destruct (Dict.mem m d) eqn:E.
  - apply DictFacts.mem_iff in E. split; [auto|]. intros [->|I]; assumption.
  - rewrite DictFacts.in_keys_set. split; intros [X|X]; auto.
Qed.

Lemma in_ensure_node n a m d :
  In (n, a) (ensure_node m d) -> (n, a) = (m, []) \/ In (n, a) d.
Proof.
  unfold ensure_node. destruct (Dict.mem m d); [auto|]. apply in_set.
Qed.

Lemma nx_graph_add_node n a g : nx_graph g -> nx_graph (add_node n a g).
Proof.
  intros [NN [NE [EP AT]]]. unfold nx_graph, add_node. cbn [nodes edges].
  split; [apply DictFacts.nodup_set; exact NN|].
  split; [exact NE|].
  split.
  - intros x y I. destruct (EP x y I) as [Ix Iy].
    rewrite !DictFacts.in_keys_set. auto.
  - intros n' a' I. apply in_set in I as [E|I]; [|eapply AT; exact I].
    inversion E; subst. apply DictFacts.nodup_update.
    unfold Dict.get_default. apply default_attrs_nodup.
    intros old G. apply DictFacts.get_some_in in G. eapply AT; exact G.
Qed.

Lemma nx_graph_add_edge u v a g :
  directed g = true -> nx_graph g -> nx_graph (add_edge u v a g).
Proof.
  intros D [NN [NE [EP AT]]]. unfold nx_graph, add_edge, edge_key. rewrite D.
  cbv zeta iota. cbn [nodes edges].
  split; [apply ensure_node_nodup, ensure_node_nodup; exact NN|].
  split; [apply DictFacts.nodup_set; exact NE|].
  split.
  - intros x y I. rewrite !ensure_node_keys.
    apply DictFacts.in_keys_set in I as [E|I].
    + inversion E; subst. auto.
    + destruct (EP x y I). auto.
  - intros n' a' I.
    apply in_ensure_node in I as [E|I]; [inversion E; constructor|].
    apply in_ensure_node in I as [E|I]; [inversion E; constructor|].
    eapply AT; exact I.
Qed.

Lemma nx_graph_add_source_nodes sources : forall g,
  nx_graph g -> nx_graph (add_source_nodes sources g).
Proof.
  unfold add_source_nodes.
  induction sources as [|s l IH]; intros g G; [exact G|].
  cbn [fold_left]. apply IH, nx_graph_add_node, G.
Qed.

(** The graph [build_source_graph] leaves is such a graph, without edges. *)
Lemma nx_graph_left now days_back self :
  nx_graph (source_graph (left_by (build_source_graph now days_back) self)).
Proof.
  unfold left_by. rewrite build_source_graph_run. cbn [snd source_graph].
  apply nx_graph_add_source_nodes.
  unfold nx_graph, clear. cbn. repeat split; try constructor; intros; contradiction.
Qed.

Lemma nx_graph_demo : nx_graph demo_graph.
Proof.
  unfold demo_graph.
  apply nx_graph_add_edge; [reflexivity|].
  apply nx_graph_add_edge; [reflexivity|].
  apply nx_graph_add_source_nodes, nx_graph_empty.
Qed.

Lemma no_self_loop_demo : no_self_loop demo_graph.
Proof.
  intros a I. vm_compute in I.
  destruct I as [E|[E|[]]]; inversion E; subst; discriminate.
Qed.

(** ** Degrees and density *)

(** The record [get_network_stats] returns, field by field. *)
Lemma get_network_stats_value lib self :
  let g := source_graph self in
  let n := number_of_nodes g in
  get_network_stats lib self =
  (Ok (NetworkStats.mk n (number_of_edges g)
        (if 0 <? n then nx_density g else 0%Q)
        0
        (if 0 <? n
         then (inject_Z (sum_Z (Dict.values (degree_view g))) /
               inject_Z (Dict.len (degree_view g)))%Q
         else 0%Q)
        (if 0 <? n
         then match nx_is_connected lib (to_undirected g) with
              | Ok b => b
              | Raise _ => false
              end
         else false)),
   self).
Proof.
  cbv zeta. unfold get_network_stats, bind, get_self. cbv zeta.
  destruct (0 <? number_of_nodes (source_graph self)).
  - unfold call, try_except.
    destruct (nx_is_connected lib (to_undirected (source_graph self))); reflexivity.
  - reflexivity.
Qed.

Lemma degree_sum g :
  nx_graph g -> sum_Z (Dict.values (degree_view g)) = 2 * number_of_edges g.
Proof.
  intros [NN [_ [EP _]]].
  unfold degree_view, Dict.values. rewrite map_map. cbn [snd].
  unfold degree. rewrite sum_Z_map_add.
  unfold in_degree, out_degree.
  rewrite (sum_degrees snd), (sum_degrees fst).
  - unfold number_of_edges, Dict.len, Zlength', Dict.keys. rewrite length_map. lia.
  - exact NN.
  - intros [a b] I. apply EP in I. apply I.
  - exact NN.
  - intros [a b] I. apply EP in I. apply I.
Qed.

Lemma edge_bound g :
  nx_graph g -> no_self_loop g ->
  number_of_edges g <= number_of_nodes g * (number_of_nodes g - 1).
Proof.
  intros [NN [NE [EP _]]] NS.
  pose proof (@edges_at_most_pairs (Dict.keys (nodes g)) (Dict.keys (edges g))) as B.
  unfold number_of_edges, number_of_nodes, Dict.len.
  unfold Zlength', Dict.keys in B. rewrite !length_map in B. apply B.
  - exact NN.
  - exact NE.
  - intros a b I. destruct (EP a b I) as [Ia Ib].
    split; [exact Ia|]. split; [exact Ib|].
    intros ->. exact (NS b I).
Qed.

(** X5. On a source graph as networkx keeps one (distinct nodes, every edge
    between two nodes of the graph), the average degree reported by
    [get_network_stats] is twice the number of edges divided by the number
    of nodes, and a graph without nodes has no edge. *)
Theorem stats_average_degree_handshake :
  forall (lib : Library) (self : NetworkAnalyzer),
    nx_graph (source_graph self) ->
    exists st,
      get_network_stats lib self = (Ok st, self) /\
      (0 < NetworkStats.node_count st ->
       (NetworkStats.avg_degree st * inject_Z (NetworkStats.node_count st) ==
        inject_Z (2 * NetworkStats.edge_count st))%Q) /\
      (NetworkStats.node_count st = 0 -> NetworkStats.edge_count st = 0).
Proof.
  intros lib self G.
  set (g := source_graph self).
  eexists. split; [apply get_network_stats_value|].
  cbn [NetworkStats.node_count NetworkStats.edge_count NetworkStats.avg_degree].
  fold g.
  pose proof (degree_sum G) as S. fold g in S.
  assert (Dict.len (degree_view g) = number_of_nodes g) as L.
  { unfold Dict.len, degree_view, number_of_nodes, Dict.len, Dict.keys.
    rewrite !length_map. reflexivity. }
  split.
  - intros P. assert ((0 <? number_of_nodes g) = true) as -> by (apply Z.ltb_lt; exact P).
    rewrite S, L. field. intros E. unfold Qeq in E. simpl in E. lia.
  - intros Z0. destruct G as [_ [_ [EP _]]]. fold g in EP.
    unfold number_of_nodes, number_of_edges, Dict.len in *.
    destruct (edges g) as [|[[a b] x] es] eqn:Eg; [reflexivity|].
    destruct (EP a b) as [Ia _]; [left; reflexivity|].
    destruct (nodes g); [destruct Ia | simpl in Z0; lia].
Qed.

Lemma stats_average_degree_handshake_witness :
  nx_graph (source_graph demo_analyzer) /\
  exists st,
    get_network_stats demo_library demo_analyzer = (Ok st, demo_analyzer) /\
    NetworkStats.node_count st = 3 /\
    NetworkStats.edge_count st = 2 /\
    (NetworkStats.avg_degree st * inject_Z 3 == inject_Z 4)%Q.
Proof.
  split; [exact nx_graph_demo|].
  destruct (@stats_average_degree_handshake demo_library demo_analyzer nx_graph_demo)
    as [st [R [A _]]].
  exists st. split; [exact R|].
  assert (NetworkStats.node_count st = 3 /\ NetworkStats.edge_count st = 2) as [N E].
  { pose proof (get_network_stats_value demo_library demo_analyzer) as V.
    cbv zeta in V. rewrite V in R. inversion R. split; reflexivity. }
  split; [exact N|]. split; [exact E|].
  rewrite N, E in A. apply A. lia.
Defined.

Lemma Q_fraction_bounds m k :
  0 <= m <= k -> 0 < k -> (0 <= inject_Z m / inject_Z k <= 1)%Q.
Proof.
  intros [M0 MK] K.
  assert (0 < inject_Z k)%Q as QK by (rewrite (Zlt_Qlt 0 k) in K; exact K).
  split.
  - apply Qle_shift_div_l; [exact QK|]. rewrite Qmult_0_l.
    rewrite (Zle_Qle 0 m) in M0. exact M0.
  - apply Qle_shift_div_r; [exact QK|]. rewrite Qmult_1_l.
    rewrite (Zle_Qle m k) in MK. exact MK.
Qed.

(** X6. On a directed source graph as networkx keeps one and without
    self-loop, there are at most [n (n - 1)] edges and the density
    reported by [get_network_stats] lies between 0 and 1. *)
Theorem stats_density_between_0_and_1 :
  forall (lib : Library) (self : NetworkAnalyzer),
    directed (source_graph self) = true ->
    nx_graph (source_graph self) ->
    no_self_loop (source_graph self) ->
    exists st,
      get_network_stats lib self = (Ok st, self) /\
      NetworkStats.edge_count st <=
        NetworkStats.node_count st * (NetworkStats.node_count st - 1) /\
      (0 <= NetworkStats.density st <= 1)%Q.
Proof.
  intros lib self Dg G NS.
  set (g := source_graph self) in *.
  eexists. split; [apply get_network_stats_value|].
  cbn [NetworkStats.node_count NetworkStats.edge_count NetworkStats.density].
  fold g.
  pose proof (edge_bound G NS) as B.
  split; [exact B|].
  assert (0 <= number_of_edges g) as M0 by (unfold number_of_edges, Dict.len; lia).
  assert (0 <= 0 <= 1)%Q as Z01 by (split; [apply Qle_refl | discriminate]).
  destruct (0 <? number_of_nodes g); [|exact Z01].
  unfold nx_density. rewrite Dg.
  destruct (number_of_edges g =? 0) eqn:E0; [exact Z01|].
  destruct (number_of_nodes g <=? 1) eqn:E1; [exact Z01|].
  cbn [orb]. apply Z.leb_gt in E1. apply Z.eqb_neq in E0.
  apply Q_fraction_bounds; [lia | nia].
Qed.

Lemma stats_density_between_0_and_1_witness :
  directed (source_graph demo_analyzer) = true /\
  nx_graph (source_graph demo_analyzer) /\
  no_self_loop (source_graph demo_analyzer) /\
  exists st,
    get_network_stats demo_library demo_analyzer = (Ok st, demo_analyzer) /\
    (NetworkStats.density st == 2 # 6)%Q /\
    (0 <= NetworkStats.density st <= 1)%Q.
Proof.
  split; [reflexivity|]. split; [exact nx_graph_demo|]. split; [exact no_self_loop_demo|].
  destruct (@stats_density_between_0_and_1 demo_library demo_analyzer
              eq_refl nx_graph_demo no_self_loop_demo) as [st [R [_ D]]].
  exists st. split; [exact R|]. split; [|exact D].
  pose proof (get_network_stats_value demo_library demo_analyzer) as V.
  cbv zeta in V. rewrite V in R. inversion R. vm_compute. reflexivity.
Defined.

(** ** The ranking of [find_superspreaders] *)

(** X7. The list returned for a size [N] is a prefix of the full ranking, which
    holds one record per node; a negative [N] drops [-N] records from the
    end of the full ranking instead of returning nothing; records with
    equal scores keep the order of the graph's nodes; the ids of the
    records are distinct when the node keys are. *)
Theorem superspreaders_prefix_of_stable_ranking :
  forall (lib : Library) (graph : option Graph) (top_n : Z) (self : NetworkAnalyzer),
    let g := ranked_graph graph self in
    exists l full,
      find_superspreaders lib graph top_n self = (Ok l, self) /\
      find_superspreaders lib graph (number_of_nodes g) self = (Ok full, self) /\
      Permutation full (all_records lib g) /\
      l = firstn (Z.to_nat (Zlength' l)) full /\
      Zlength' l =
        (if top_n <? 0 then Z.max 0 (number_of_nodes g + top_n)
         else Z.min top_n (number_of_nodes g)) /\
      (forall q,
         filter (fun r => Qeq_bool (SuperspreaderInfo.score r) q) full =
         filter (fun r => Qeq_bool (SuperspreaderInfo.score r) q) (all_records lib g)) /\
      (NoDup (Dict.keys (nodes g)) -> NoDup (map SuperspreaderInfo.id l)).
Proof.
  intros lib graph top_n self g.
  set (sorted := stable_sort score_ge (all_records lib g)).
  assert (Zlength' sorted = number_of_nodes g) as L.
  { unfold sorted, Zlength'. rewrite stable_sort_length. apply all_records_length. }
  exists (slice_to top_n sorted), sorted.
  split; [apply find_superspreaders_run|].
  split.
  { rewrite find_superspreaders_run. fold g. fold sorted.
    rewrite slice_to_all by lia. reflexivity. }
  split; [symmetry; apply stable_sort_perm|].
  split; [apply slice_to_firstn|].
  split; [rewrite slice_to_length_any, L; reflexivity|].
  split.
  { intros q. apply stable_sort_filter. intros x y Px Py.
    apply Qeq_bool_iff in Px, Py. unfold score_ge. apply Qle_bool_iff.
    rewrite Px, Py. apply Qle_refl. }
  intros ND. rewrite slice_to_firstn, <- firstn_map. apply firstn_nodup.
  apply (Permutation_NoDup (l := map SuperspreaderInfo.id (all_records lib g))).
  - apply Permutation_map, stable_sort_perm.
  - rewrite all_records_ids. exact ND.
Qed.

Lemma strongly_sorted_in_impl {A} (R S : A -> A -> Prop) l :
  (forall a b, In a l -> In b l -> R a b -> S a b) ->
  StronglySorted R l -> StronglySorted S l.
Proof.
  intros RS St. induction St as [|x l St IH F]; constructor.
  - apply IH. intros a b Ia Ib. apply RS; right; assumption.
  - rewrite Forall_forall in *. intros y I. apply RS; [left; reflexivity | right; exact I|].
    apply F; exact I.
Qed.

(** X8. When PageRank and betweenness both fail, every score is 0.4 times the
    out-degree and the ranking is by descending out-degree. *)
Theorem superspreaders_fall_back_to_out_degree :
  forall (lib : Library) (graph : option Graph) (top_n : Z) (self : NetworkAnalyzer)
         (e1 e2 : exn),
    let g := ranked_graph graph self in
    nx_pagerank lib g 100 = Raise e1 ->
    nx_betweenness_centrality lib g = Raise e2 ->
    exists l,
      find_superspreaders lib graph top_n self = (Ok l, self) /\
      (forall r, In r l ->
         (SuperspreaderInfo.score r ==
          (4 # 10) * inject_Z (SuperspreaderInfo.out_degree r))%Q) /\
      StronglySorted
        (fun a b => SuperspreaderInfo.out_degree b <= SuperspreaderInfo.out_degree a) l.
Proof.
  intros lib graph top_n self e1 e2 g P B.
  eexists. split; [apply find_superspreaders_run|]. fold g.
  assert (forall r, In r (slice_to top_n (stable_sort score_ge (all_records lib g))) ->
            (SuperspreaderInfo.score r ==
             (4 # 10) * inject_Z (SuperspreaderInfo.out_degree r))%Q) as Sc.
  { intros r I. apply slice_to_in, stable_sort_in in I.
    unfold all_records in I. apply in_map_iff in I as [[n a] [<- _]].
    unfold superspreader_of, pagerank_of, betweenness_of.
    cbn [fst snd SuperspreaderInfo.score SuperspreaderInfo.out_degree].
    rewrite P, B, !zero_for_nodes_get. unfold combined_score. ring. }
  split; [exact Sc|].
  apply strongly_sorted_in_impl with
    (R := fun a b => (SuperspreaderInfo.score b <= SuperspreaderInfo.score a)%Q).
  - intros a b Ia Ib Le. rewrite (Sc a Ia), (Sc b Ib) in Le.
    apply Qmult_le_l in Le; [|reflexivity].
    rewrite Zle_Qle. exact Le.
  - apply slice_to_sorted.
    apply strongly_sorted_impl with (R := fun a b => score_ge a b = true).
    + intros a b. unfold score_ge. apply Qle_bool_iff.
    + apply stable_sort_sorted; [apply score_ge_total | apply score_ge_trans].
Qed.

Lemma superspreaders_fall_back_to_out_degree_witness :
  nx_pagerank failing_library (source_graph demo_analyzer) 100 = Raise "PowerIterationFailedConvergence" /\
  nx_betweenness_centrality failing_library (source_graph demo_analyzer) =
    Raise "betweenness failed" /\
  exists l,
    find_superspreaders failing_library None 20 demo_analyzer = (Ok l, demo_analyzer) /\
    StronglySorted
      (fun a b => SuperspreaderInfo.out_degree b <= SuperspreaderInfo.out_degree a) l.
Proof.
  split; [reflexivity|]. split; [reflexivity|].
  destruct (superspreaders_fall_back_to_out_degree failing_library None 20 demo_analyzer
              eq_refl eq_refl) as [l [R [_ S]]].
  exists l. auto.
Defined.

Example demo_out_degree_ranking :
  exists l,
    find_superspreaders failing_library None 20 demo_analyzer = (Ok l, demo_analyzer) /\
    map SuperspreaderInfo.id l = ["src-a"; "src-z"; "src-b"] /\
    map SuperspreaderInfo.out_degree l = [1; 1; 0].
Proof. eexists. vm_compute. repeat split. Qed.

Example demo_negative_top_n :
  exists l,
    find_superspreaders failing_library None (-1) demo_analyzer = (Ok l, demo_analyzer) /\
    map SuperspreaderInfo.id l = ["src-a"; "src-z"].
Proof. eexists. vm_compute. repeat split. Qed.

(** ** Nodes of active sources *)

Lemma add_node_get n m a g :
  Dict.get n (nodes (add_node m a g)) =
  if key_eqb n m then Some (Dict.update a (Dict.get_default m [] (nodes g)))
  else Dict.get n (nodes g).
Proof. unfold add_node. cbn [nodes]. apply DictFacts.get_set. Qed.

Lemma source_node_attrs_fresh s : Dict.update (source_node_attrs s) [] = source_node_attrs s.
Proof. reflexivity. Qed.

Lemma add_source_nodes_get_other sources : forall g n,
  ~ In n (map Source.id sources) ->
  Dict.get n (nodes (add_source_nodes sources g)) = Dict.get n (nodes g).
Proof.
  unfold add_source_nodes.
  induction sources as [|x l IH]; intros g n NI; [reflexivity|].
  cbn [fold_left]. rewrite IH by (intros I; apply NI; right; exact I).
  rewrite add_node_get.
  destruct (key_eqb n (Source.id x)) eqn:E; [|reflexivity].
  apply key_eqb_eq in E. exfalso. apply NI. left. symmetry; exact E.
Qed.

Lemma add_source_nodes_get sources : forall g s,
  NoDup (map Source.id sources) ->
  In s sources ->
  Dict.get (Source.id s) (nodes g) = None ->
  Dict.get (Source.id s) (nodes (add_source_nodes sources g)) = Some (source_node_attrs s).
Proof.
  induction sources as [|x l IH]; intros g s ND I G; [destruct I|].
  cbn [map] in ND. inversion ND as [|? ? NI ND']; subst.
  change (add_source_nodes (x :: l) g)
    with (add_source_nodes l (add_node (Source.id x) (source_node_attrs x) g)).
  destruct I as [->|I].
  - rewrite add_source_nodes_get_other by exact NI.
    rewrite add_node_get, key_eqb_refl. unfold Dict.get_default.
    unfold attrs, Dict.t in *. rewrite G. reflexivity.
  - apply IH; [exact ND' | exact I|].
    rewrite add_node_get.
    destruct (key_eqb (Source.id s) (Source.id x)) eqn:E; [|exact G].
    apply key_eqb_eq in E. exfalso. apply NI. rewrite <- E. apply in_map. exact I.
Qed.

Lemma add_source_nodes_length sources : forall g,
  NoDup (Dict.keys (nodes g) ++ map Source.id sources) ->
  Zlength' (nodes (add_source_nodes sources g)) = Zlength' (nodes g) + Zlength' sources.
Proof.
  unfold add_source_nodes.
  induction sources as [|s l IH]; intros g ND.
  - cbn [fold_left]. unfold Zlength'. simpl. lia.
  - cbn [fold_left].
    assert (Dict.get (Source.id s) (nodes g) = None) as G.
    { apply DictFacts.get_none_iff. cbn [map] in ND.
      apply NoDup_remove_2 in ND. rewrite in_app_iff in ND. tauto. }
    assert (nodes (add_node (Source.id s) (source_node_attrs s) g) =
            nodes g ++ [(Source.id s, source_node_attrs s)]) as E.
    { unfold add_node. cbn [nodes]. unfold Dict.get_default.
      unfold attrs, Dict.t in *. rewrite G. apply set_absent. exact G. }
    rewrite IH.
    + rewrite E. unfold Zlength'. rewrite length_app. simpl List.length. lia.
    + rewrite E. unfold Dict.keys in *. rewrite map_app. cbn [map fst].
      rewrite <- app_assoc. exact ND.
Qed.

Lemma out_degree_no_edges g n : edges g = [] -> out_degree g n = 0.
Proof. intros E. unfold out_degree. rewrite E. reflexivity. Qed.

(** X9. When the active sources have distinct ids, [build_source_graph]
    leaves (as it raises) one node per active source, carrying exactly the
    five attributes read from its row (language "unknown" when the row has
    none).  [find_superspreaders], run on the instance left, emits for
    every active source, when the requested size admits them all, a record
    that shows the row's name, source type and doppelganger flag and an
    out-degree of 0. *)
Theorem active_source_nodes_carry_row_attributes :
  forall (lib : Library) (self : NetworkAnalyzer) (now days_back top_n : Z),
    NoDup (map Source.id (active_sources (session self))) ->
    let self' := left_by (build_source_graph now days_back) self in
    number_of_nodes (source_graph self') = Zlength' (active_sources (session self)) /\
    (forall s, In s (active_sources (session self)) ->
       Dict.get (Source.id s) (nodes (source_graph self')) =
       Some [ ("name", VStr (Source.name s));
              ("source_type", VStr (Source.source_type s));
              ("language",
                 VStr (match Source.language s with
                       | Some "" | None => "unknown"
                       | Some lang => lang
                       end));
              ("is_doppelganger", VBool (Source.is_doppelganger s));
              ("is_amplifier", VBool (Source.is_amplifier s)) ]) /\
    exists l,
      find_superspreaders lib None top_n self' = (Ok l, self') /\
      (forall r s,
         In r l -> In s (active_sources (session self)) ->
         SuperspreaderInfo.id r = Source.id s ->
         SuperspreaderInfo.name r = VStr (Source.name s) /\
         SuperspreaderInfo.source_type r = VStr (Source.source_type s) /\
         SuperspreaderInfo.is_doppelganger r = VBool (Source.is_doppelganger s) /\
         SuperspreaderInfo.out_degree r = 0) /\
      (Zlength' (active_sources (session self)) <= top_n ->
       forall s, In s (active_sources (session self)) ->
         exists r, In r l /\
           SuperspreaderInfo.id r = Source.id s /\
           SuperspreaderInfo.name r = VStr (Source.name s) /\
           SuperspreaderInfo.source_type r = VStr (Source.source_type s) /\
           SuperspreaderInfo.is_doppelganger r = VBool (Source.is_doppelganger s) /\
           SuperspreaderInfo.out_degree r = 0).
Proof.
  intros lib self now days_back top_n ND self'.
  set (db := session self).
  set (g := source_graph self').
  assert (g = add_source_nodes (active_sources db) (clear (source_graph self))) as Eg.
  { unfold g, self', left_by. rewrite build_source_graph_run. reflexivity. }
  assert (edges g = []) as NoE.
  { rewrite Eg, add_source_nodes_edges. reflexivity. }
  assert (NoDup (Dict.keys (nodes g))) as NDg.
  { rewrite Eg. apply add_source_nodes_nodup. constructor. }
  assert (forall s, In s (active_sources db) ->
            Dict.get (Source.id s) (nodes g) = Some (source_node_attrs s)) as A.
  { intros s I. rewrite Eg.
    apply (@add_source_nodes_get (active_sources db) _ s ND I). reflexivity. }
  assert (number_of_nodes g = Zlength' (active_sources db)) as N.
  { rewrite Eg. unfold number_of_nodes, Dict.len.
    pose proof (@add_source_nodes_length (active_sources db) (clear (source_graph self))) as Ln.
    unfold Zlength' in Ln. rewrite Ln; [reflexivity|]. exact ND. }
  split; [exact N|].
  split.
  { intros s I. rewrite (A s I). unfold source_node_attrs, language_or_unknown, truthy_str.
    destruct (Source.language s) as [[|c lang]|]; reflexivity. }
  eexists. split; [apply find_superspreaders_run|].
  unfold ranked_graph. fold g.
  assert (forall r s,
            In r (stable_sort score_ge (all_records lib g)) ->
            In s (active_sources db) ->
            SuperspreaderInfo.id r = Source.id s ->
            SuperspreaderInfo.name r = VStr (Source.name s) /\
            SuperspreaderInfo.source_type r = VStr (Source.source_type s) /\
            SuperspreaderInfo.is_doppelganger r = VBool (Source.is_doppelganger s) /\
            SuperspreaderInfo.out_degree r = 0) as D.
  { intros r s I Is Id. apply stable_sort_in in I.
    unfold all_records in I. apply in_map_iff in I as [[n a] [<- I]]. cbn [fst snd] in *.
    change (n = Source.id s) in Id. subst n.
    assert (In (Source.id s) (Dict.keys (nodes g))) as K.
    { apply get_some_iff_in_keys. rewrite (A s Is). eauto. }
    apply (DictFacts.in_get_nodup _ _ _ NDg) in I.
    rewrite (A s Is) in I. inversion I; subst a.
    cbn [superspreader_of SuperspreaderInfo.name SuperspreaderInfo.source_type
         SuperspreaderInfo.is_doppelganger SuperspreaderInfo.out_degree].
    rewrite (@out_degree_view_get g (Source.id s) K), (@out_degree_no_edges g (Source.id s) NoE).
    repeat split. }
  split.
  - intros r s I. apply D. eapply slice_to_in; exact I.
  - intros Le s Is.
    rewrite slice_to_all by (rewrite ranking_length, N; exact Le).
    destruct (ranking_covers lib g (Source.id s)) as [r [I Id]].
    { apply get_some_iff_in_keys. rewrite (A s Is). eauto. }
    exists r. split; [exact I|]. split; [exact Id|]. apply (D r s I Is Id).
Qed.

Lemma active_source_nodes_carry_row_attributes_witness :
  NoDup (map Source.id (active_sources (session (init demo_store)))) /\
  Dict.get "src-b" (nodes (source_graph (left_by (build_source_graph 1000 1) (init demo_store)))) =
    Some [ ("name", VStr "Beta"); ("source_type", VStr "media");
           ("language", VStr "unknown"); ("is_doppelganger", VBool false);
           ("is_amplifier", VBool true) ] /\
  exists l r,
    find_superspreaders demo_library None 20 (left_by (build_source_graph 1000 1) (init demo_store)) =
      (Ok l, left_by (build_source_graph 1000 1) (init demo_store)) /\
    In r l /\
    SuperspreaderInfo.id r = "src-b" /\
    SuperspreaderInfo.name r = VStr "Beta" /\
    SuperspreaderInfo.out_degree r = 0.
Proof.
  assert (NoDup (map Source.id (active_sources (session (init demo_store))))) as ND.
  { vm_compute. repeat constructor; simpl; intuition discriminate. }
  split; [exact ND|].
  destruct (@active_source_nodes_carry_row_attributes demo_library (init demo_store) 1000 1 20 ND)
    as [_ [A [l [F [_ C]]]]].
  assert (In (Source.mk "src-b" "Beta" "media" None false true true)
            (active_sources (session (init demo_store)))) as Ib
    by (vm_compute; auto).
  split; [exact (A _ Ib)|].
  destruct (C ltac:(vm_compute; discriminate) _ Ib) as [r [I [Id [Nm [_ [_ Od]]]]]].
  exists l, r. split; [exact F|]. repeat split; assumption.
Defined.

(** ** Reported events *)

Lemma distinct_length {K} `{Hashable K} (l : list K) :
  (List.length (distinct l) <= List.length l)%nat.
Proof.
  induction l as [|x l IH]; simpl; [lia|].
  destruct (existsb (key_eqb x) l); simpl; lia.
Qed.

Lemma window_sources_at_most_items win :
  Zlength' (window_sources win) <= Zlength' win.
Proof.
  unfold window_sources, Zlength'. apply inj_le.
  etransitivity; [apply distinct_length|].
  induction win as [|c r IH]; simpl; [lia|].
  rewrite length_app.
  destruct (Content.source_id c) as [s|]; [destruct (truthy_str s)|]; simpl; lia.
Qed.

Lemma take_while_in {A} (f : A -> bool) x l :
  In x (take_while f l) -> In x l /\ f x = true.
Proof.
  induction l as [|y r IH]; simpl; [tauto|].
  destruct (f y) eqn:E; [|intros []].
  intros [<-|I]; [auto|]. destruct (IH I). auto.
Qed.

Lemma window_from_in t0 w l c :
  In c (window_from t0 w l) -> In c l /\ within t0 w c = true.
Proof.
  rewrite window_from_take_while. intros I.
  apply take_while_in in I as [I W]. apply filter_In in I as [I _]. auto.
Qed.

Lemma in_skipn {A} (x : A) n l : In x (skipn n l) -> In x l.
Proof.
  intros I. rewrite <- (firstn_skipn n l). apply in_or_app; right; exact I.
Qed.

Lemma event_ids_length t0 w win :
  Zlength' (CoordinatedBehaviorEvent.content_ids (event_of t0 w win)) =
  Z.min 10 (Zlength' win).
Proof.
  unfold event_of, Zlength'. cbn [CoordinatedBehaviorEvent.content_ids].
  rewrite length_map, length_firstn. lia.
Qed.

Lemma events_are_candidates w m cs e :
  In e (coordination_events w m cs) -> In e (candidates w m cs).
Proof.
  rewrite coordination_events_first_per_hour, first_per_hour_in.
  intros [b [a [E _]]]. rewrite E. apply in_or_app. right. left. reflexivity.
Qed.

(** X12. Every reported event counts at least min_actors items and at least
    min_actors distinct sources, never more sources than items, lists
    min(10, items) content ids, all of them ids of contents of the sequence
    that have a publication time within the window of the anchor, and is
    anchored at the publication time of one of the contents. *)
Theorem reported_events_meet_thresholds :
  forall (w m : Z) (cs : list Content.t),
    Forall
      (fun e =>
         m <= CoordinatedBehaviorEvent.content_count e /\
         m <= CoordinatedBehaviorEvent.unique_sources e /\
         CoordinatedBehaviorEvent.unique_sources e <=
           CoordinatedBehaviorEvent.content_count e /\
         CoordinatedBehaviorEvent.window_seconds e = w /\
         Zlength' (CoordinatedBehaviorEvent.content_ids e) =
           Z.min 10 (CoordinatedBehaviorEvent.content_count e) /\
         (exists c, In c cs /\
            Content.published_at c = Some (CoordinatedBehaviorEvent.timestamp e)) /\
         (forall i, In i (CoordinatedBehaviorEvent.content_ids e) ->
            exists c t, In c cs /\ Content.id c = i /\
                        Content.published_at c = Some t /\
                        t - CoordinatedBehaviorEvent.timestamp e <= w))
      (coordination_events w m cs).
Proof.
  intros w m cs. apply Forall_forall. intros e I.
  apply events_are_candidates, candidates_index in I
    as [i [c [t0 [N [P [Co ->]]]]]].
  unfold coordinated in Co. apply andb_true_iff in Co as [A B].
  apply Z.leb_le in A, B.
  set (win := window_from t0 w (skipn i cs)) in *.
  cbn [event_of CoordinatedBehaviorEvent.content_count CoordinatedBehaviorEvent.unique_sources
       CoordinatedBehaviorEvent.window_seconds CoordinatedBehaviorEvent.timestamp].
  split; [exact A|]. split; [exact B|].
  split; [apply window_sources_at_most_items|].
  split; [reflexivity|].
  split; [apply (event_ids_length t0 w win)|].
  split.
  - exists c. split; [eapply nth_error_In; exact N | exact P].
  - intros j J. cbn [CoordinatedBehaviorEvent.content_ids] in J.
    apply in_map_iff in J as [c' [<- J]]. apply in_firstn in J.
    apply window_from_in in J as [J W]. apply in_skipn in J.
    unfold within in W. destruct (Content.published_at c') as [t|] eqn:Pc; [|discriminate].
    apply Z.leb_le in W. exists c', t. auto.
Qed.

(** ** Time-sorted sequences *)

Lemma window_from_sorted t0 w l :
  time_sorted l -> window_from t0 w l = filter (within t0 w) l.
Proof.
  unfold time_sorted. induction 1 as [|x r S IH F]; [reflexivity|].
  cbn [window_from filter]. unfold within at 1.
  destruct (Content.published_at x) as [t|] eqn:P.
  - cbv zeta. destruct (t - t0 <=? w) eqn:E; [rewrite IH; reflexivity|].
    apply Z.leb_gt in E.
    assert ((t - t0 >? w) = true) as -> by (apply Z.gtb_lt; lia).
    symmetry. clear IH S. induction r as [|y r IHr]; [reflexivity|].
    inversion F as [|? ? Fy Fr]; subst. cbn [filter]. unfold within at 1.
    destruct (Content.published_at y) as [ty|]; [|apply IHr; exact Fr].
    assert ((ty - t0 <=? w) = false) as -> by (apply Z.leb_gt; lia).
    apply IHr; exact Fr.
  - destruct r as [|y r]; [reflexivity|].
    inversion F as [|? ? Fy Fr]; subst. rewrite ?P in Fy. cbn in Fy. destruct Fy.
Qed.

Lemma skipn_sorted {A} (R : A -> A -> Prop) n : forall l,
  StronglySorted R l -> StronglySorted R (skipn n l).
Proof.
  induction n as [|n IH]; intros l S; [exact S|].
  destruct S as [|x l S F]; [constructor|]. cbn [skipn]. apply IH; exact S.
Qed.

Lemma sorted_later_items t0 c rest y :
  time_sorted (c :: rest) -> Content.published_at c = Some t0 ->
  In y (c :: rest) -> forall t, Content.published_at y = Some t -> t0 <= t.
Proof.
  unfold time_sorted. intros S P I t Py. inversion S as [|? ? S' F]; subst.
  destruct I as [<-|I]; [rewrite P in Py; inversion Py; lia|].
  rewrite Forall_forall in F. specialize (F y I). rewrite P, Py in F. exact F.
Qed.

(** X13. On a time-sorted sequence the window of the anchor at index [i] holds
    exactly the items from index [i] on that are published at most
    window_seconds after the anchor: stopping at the first item that is too
    late loses nothing. *)
Theorem sorted_window_is_complete :
  forall (w : Z) (cs : list Content.t) (i : nat) (c : Content.t) (t0 : Z),
    time_sorted cs ->
    nth_error cs i = Some c ->
    Content.published_at c = Some t0 ->
    window_from t0 w (skipn i cs) = filter (within t0 w) (skipn i cs) /\
    forall y,
      In y (window_from t0 w (skipn i cs)) <->
      In y (skipn i cs) /\
      exists t, Content.published_at y = Some t /\ t0 <= t <= t0 + w.
Proof.
  intros w cs i c t0 S N P.
  assert (time_sorted (skipn i cs)) as Sk by (apply skipn_sorted; exact S).
  assert (exists rest, skipn i cs = c :: rest) as [rest Eq].
  { clear S Sk P. revert cs N. induction i as [|i IH]; intros cs N.
    - destruct cs as [|x r]; [discriminate|]. simpl in N. inversion N; subst.
      exists r. reflexivity.
    - destruct cs as [|x r]; [discriminate|]. apply IH. exact N. }
  rewrite (window_from_sorted t0 w Sk). split; [reflexivity|].
  intros y. rewrite filter_In. unfold within. split.
  - intros [I W]. split; [exact I|].
    destruct (Content.published_at y) as [t|] eqn:Py; [|discriminate].
    apply Z.leb_le in W. exists t. split; [reflexivity|].
    rewrite Eq in Sk, I. pose proof (sorted_later_items Sk P I Py). lia.
  - intros [I [t [Py [_ Le]]]]. split; [exact I|].
    rewrite Py. apply Z.leb_le. lia.
Qed.

Lemma three_sources_time_sorted : time_sorted three_sources.
Proof.
  unfold time_sorted, three_sources.
  repeat constructor; simpl; lia.
Qed.

Lemma sorted_window_is_complete_witness :
  time_sorted three_sources /\
  nth_error three_sources 1 = Some (Content.mk "p2" (Some "s2") (Some 10)) /\
  Content.published_at (Content.mk "p2" (Some "s2") (Some 10)) = Some 10 /\
  window_from 10 5 (skipn 1 three_sources) = filter (within 10 5) (skipn 1 three_sources).
Proof.
  split; [exact three_sources_time_sorted|]. split; [reflexivity|]. split; [reflexivity|].
  apply (sorted_window_is_complete 5 (cs := three_sources) 1
           three_sources_time_sorted eq_refl eq_refl).
Defined.

Lemma candidate_anchor w m cs e :
  In e (candidates w m cs) ->
  exists c, In c cs /\ Content.published_at c = Some (CoordinatedBehaviorEvent.timestamp e).
Proof.
  intros I. apply candidates_index in I as [i [c [t0 [N [P [_ ->]]]]]].
  exists c. split; [eapply nth_error_In; exact N | exact P].
Qed.

Lemma candidates_sorted w m cs :
  time_sorted cs ->
  StronglySorted
    (fun e1 e2 => CoordinatedBehaviorEvent.timestamp e1 <= CoordinatedBehaviorEvent.timestamp e2)
    (candidates w m cs).
Proof.
  unfold time_sorted. induction 1 as [|c rest S IH F]; [constructor|].
  cbn [candidates].
  destruct (Content.published_at c) as [t0|] eqn:P; [|exact IH].
  destruct (coordinated m (window_from t0 w (c :: rest))); [|exact IH].
  constructor; [exact IH|].
  apply Forall_forall. intros e I.
  apply candidate_anchor in I as [c' [I' P']].
  rewrite Forall_forall in F. specialize (F c' I'). rewrite ?P, P' in F.
  exact F.
Qed.

Lemma first_per_hour_subset seen events e :
  In e (first_per_hour seen events) -> In e events.
Proof.
  rewrite first_per_hour_in. intros [b [a [-> _]]].
  apply in_or_app. right. left. reflexivity.
Qed.

Lemma first_per_hour_sorted (R : CoordinatedBehaviorEvent.t -> CoordinatedBehaviorEvent.t -> Prop)
    events : forall seen,
  StronglySorted R events -> StronglySorted R (first_per_hour seen events).
Proof.
  induction events as [|x r IH]; intros seen S; [constructor|].
  inversion S as [|? ? S' F]; subst. cbn [first_per_hour].
  destruct (existsb (Z.eqb (event_hour x)) seen); [apply IH; exact S'|].
  constructor; [apply IH; exact S'|].
  rewrite Forall_forall in *. intros e I. apply F.
  eapply first_per_hour_subset; exact I.
Qed.

Lemma hour_key_monotone t1 t2 : t1 <= t2 -> hour_key t1 <= hour_key t2.
Proof. intros L. unfold hour_key. apply Z.div_le_mono; lia. Qed.

Lemma sorted_distinct_strict {A} (f : A -> Z) l :
  StronglySorted (fun a b => f a <= f b) l -> NoDup (map f l) ->
  StronglySorted (fun a b => f a < f b) l.
Proof.
  induction 1 as [|x r S IH F]; intros ND; [constructor|].
  cbn [map] in ND. inversion ND as [|? ? NI ND']; subst.
  constructor; [apply IH; exact ND'|].
  rewrite Forall_forall in *. intros y I.
  assert (f x <> f y) as N.
  { intros E. apply NI. rewrite E. apply in_map. exact I. }
  specialize (F y I). lia.
Qed.

Lemma events_hours_increasing w m cs :
  time_sorted cs ->
  StronglySorted (fun e1 e2 => event_hour e1 < event_hour e2) (coordination_events w m cs).
Proof.
  intros S. apply sorted_distinct_strict.
  - rewrite coordination_events_first_per_hour.
    apply first_per_hour_sorted.
    apply strongly_sorted_impl with
      (R := fun e1 e2 => CoordinatedBehaviorEvent.timestamp e1 <=
                         CoordinatedBehaviorEvent.timestamp e2).
    + intros a b. apply hour_key_monotone.
    + apply candidates_sorted. exact S.
  - rewrite coordination_events_first_per_hour. apply first_per_hour_nodup.
Qed.

(** X14. On a time-sorted sequence the events come out in chronological order,
    each in a later hour than the one before: at most one event per
    hour. *)
Theorem sorted_events_are_chronological :
  forall (w m : Z) (cs : list Content.t),
    time_sorted cs ->
    StronglySorted
      (fun e1 e2 =>
         hour_key (CoordinatedBehaviorEvent.timestamp e1) <
           hour_key (CoordinatedBehaviorEvent.timestamp e2) /\
         CoordinatedBehaviorEvent.timestamp e1 < CoordinatedBehaviorEvent.timestamp e2)
      (coordination_events w m cs).
Proof.
  intros w m cs S.
  apply strongly_sorted_impl with (R := fun e1 e2 => event_hour e1 < event_hour e2);
    [|apply events_hours_increasing; exact S].
  intros a b H. unfold event_hour in H. split; [exact H|].
  destruct (Z.lt_ge_cases (CoordinatedBehaviorEvent.timestamp a)
              (CoordinatedBehaviorEvent.timestamp b)) as [L|G]; [exact L|].
  apply hour_key_monotone in G. lia.
Qed.

Lemma sorted_events_are_chronological_witness :
  time_sorted straddling_burst /\
  StronglySorted
    (fun e1 e2 =>
       hour_key (CoordinatedBehaviorEvent.timestamp e1) <
         hour_key (CoordinatedBehaviorEvent.timestamp e2) /\
       CoordinatedBehaviorEvent.timestamp e1 < CoordinatedBehaviorEvent.timestamp e2)
    (coordination_events 300 3 straddling_burst).
Proof.
  assert (time_sorted straddling_burst) as S.
  { unfold time_sorted, straddling_burst. repeat constructor; simpl; lia. }
  split; [exact S|].
  apply (sorted_events_are_chronological 300 3 S).
Defined.

(** ** The query behind [detect_coordinated_behavior] *)

Section SortOn.
Context {A : Type} (le : A -> A -> bool) (P : A -> Prop).
Hypothesis le_total_on : forall a b, P a -> P b -> le a b = false -> le b a = true.
Hypothesis le_trans_on :
  forall a b c, P a -> P b -> P c -> le a b = true -> le b c = true -> le a c = true.

Lemma insert_by_sorted_on x l :
  P x -> Forall P l ->
  StronglySorted (fun a b => le a b = true) l ->
  StronglySorted (fun a b => le a b = true) (insert_by le x l).
Proof.
  intros Px Pl S. induction S as [|y r S IH F]; simpl.
  - constructor; constructor.
  - inversion Pl as [|? ? Py Pr]; subst.
    destruct (le x y) eqn:E.
    + constructor; [constructor; assumption|].
      constructor; [exact E|].
      rewrite Forall_forall in *. intros z I.
      apply (le_trans_on Px Py (Pr z I) E). apply F; exact I.
    + constructor; [apply IH; exact Pr|].
      rewrite Forall_forall in *. intros z I.
      apply (Permutation_in _ (Permutation_sym (insert_by_perm le x r))) in I.
      destruct I as [<-|I]; [apply le_total_on; assumption | apply F; exact I].
Qed.

Lemma stable_sort_sorted_on l :
  Forall P l -> StronglySorted (fun a b => le a b = true) (stable_sort le l).
Proof.
  induction 1 as [|x l Px Pl IH]; simpl; [constructor|].
  apply insert_by_sorted_on; [exact Px | | exact IH].
  rewrite Forall_forall in *. intros y I. apply Pl.
  apply (stable_sort_in le). exact I.
Qed.
End SortOn.

Lemma contents_by_time_perm db :
  Permutation (contents_by_time db) (filter published (Store.contents db)).
Proof. unfold contents_by_time. symmetry. apply stable_sort_perm. Qed.

Lemma contents_by_time_sorted db : time_sorted (contents_by_time db).
Proof.
  unfold time_sorted.
  assert (Forall (fun c => published c = true) (contents_by_time db)) as All.
  { apply Forall_forall. intros c I.
    apply (Permutation_in _ (contents_by_time_perm db)) in I.
    apply filter_In in I. apply I. }
  apply strongly_sorted_in_impl with (R := fun a b => published_le a b = true).
  - intros a b Ia Ib. rewrite Forall_forall in All.
    pose proof (All a Ia) as Pa. pose proof (All b Ib) as Pb.
    unfold published, published_le in *.
    destruct (Content.published_at a), (Content.published_at b); try discriminate.
    apply Z.leb_le.
  - unfold contents_by_time.
    apply stable_sort_sorted_on with (P := fun c => published c = true).
    + intros a b Pa Pb. unfold published, published_le in *.
      destruct (Content.published_at a), (Content.published_at b); try discriminate.
      rewrite Z.leb_gt, Z.leb_le. lia.
    + intros a b c Pa Pb Pc. unfold published, published_le in *.
      destruct (Content.published_at a), (Content.published_at b),
        (Content.published_at c); try discriminate.
      rewrite !Z.leb_le. lia.
    + apply Forall_forall. intros c I. apply filter_In in I. apply I.
Qed.

Lemma detect_coordinated_behavior_run w m self :
  detect_coordinated_behavior w m self =
  (Ok (coordination_events w m (contents_by_time (session self))), self).
Proof. reflexivity. Qed.

(** X15. [detect_coordinated_behavior] returns, without changing the instance,
    events in chronological order with at most one event per hour; every
    event is anchored at the publication time of a content row of the
    store, and rows without a publication time never appear among its
    content ids. *)
Theorem detected_events_ordered_and_anchored :
  forall (w m : Z) (self : NetworkAnalyzer),
    exists events,
      detect_coordinated_behavior w m self = (Ok events, self) /\
      StronglySorted
        (fun e1 e2 =>
           hour_key (CoordinatedBehaviorEvent.timestamp e1) <
           hour_key (CoordinatedBehaviorEvent.timestamp e2))
        events /\
      Forall
        (fun e =>
           (exists c, In c (Store.contents (session self)) /\
              Content.published_at c = Some (CoordinatedBehaviorEvent.timestamp e)) /\
           forall i, In i (CoordinatedBehaviorEvent.content_ids e) ->
             exists c t, In c (Store.contents (session self)) /\
                         Content.id c = i /\ Content.published_at c = Some t)
        events.
Proof.
  intros w m self. eexists. split; [apply detect_coordinated_behavior_run|].
  set (cs := contents_by_time (session self)).
  assert (forall c, In c cs -> In c (Store.contents (session self))) as Sub.
  { intros c I. apply (Permutation_in _ (contents_by_time_perm (session self))) in I.
    apply filter_In in I. apply I. }
  split.
  - apply (events_hours_increasing w m (contents_by_time_sorted (session self))).
  - apply Forall_forall. intros e I.
    apply events_are_candidates in I.
    pose proof (candidate_anchor _ _ _ _ I) as [c [Ic Pc]].
    split; [exists c; auto|].
    apply candidates_index in I as [i [c0 [t0 [N [P [_ ->]]]]]].
    intros j J. cbn [event_of CoordinatedBehaviorEvent.content_ids] in J.
    apply in_map_iff in J as [c' [<- J]]. apply in_firstn in J.
    apply window_from_in in J as [J W]. apply in_skipn in J.
    unfold within in W. destruct (Content.published_at c') as [t|] eqn:Pc'; [|discriminate].
    exists c', t. auto.
Qed.

(** ** The graph given to community detection *)

Lemma ensure_node_present n d : Dict.mem n d = true -> ensure_node n d = d.
Proof. unfold ensure_node. intros ->. reflexivity. Qed.

Lemma add_edge_nodes_present u v a g :
  In u (Dict.keys (nodes g)) -> In v (Dict.keys (nodes g)) ->
  nodes (add_edge u v a g) = nodes g.
Proof.
  intros Iu Iv. unfold add_edge. cbn [nodes].
  rewrite (ensure_node_present u) by (apply DictFacts.mem_iff; exact Iu).
  apply ensure_node_present. apply DictFacts.mem_iff; exact Iv.
Qed.

Lemma add_edges_nodes_present (es : Dict.t (string * string) attrs) : forall h,
  (forall a b, In (a, b) (Dict.keys es) ->
     In a (Dict.keys (nodes h)) /\ In b (Dict.keys (nodes h))) ->
  nodes (fold_left (fun acc ea => add_edge (fst (fst ea)) (snd (fst ea)) (snd ea) acc) es h) =
  nodes h.
Proof.
  induction es as [|[[u v] a] es IH]; intros h I; [reflexivity|].
  cbn [fold_left fst snd].
  assert (nodes (add_edge u v a h) = nodes h) as E.
  { apply add_edge_nodes_present; apply (I u v); left; reflexivity. }
  rewrite IH; [exact E|].
  intros x y J. rewrite E. apply I. right; exact J.
Qed.

Lemma add_nodes_fresh (l : Dict.t string attrs) : forall h,
  NoDup (Dict.keys (nodes h) ++ Dict.keys l) ->
  (forall n a, In (n, a) l -> NoDup (Dict.keys a)) ->
  let h' := fold_left (fun acc na => add_node (fst na) (snd na) acc) l h in
  nodes h' = nodes h ++ l /\ edges h' = edges h /\ directed h' = directed h.
Proof.
  induction l as [|[n a] l IH]; intros h ND AN; cbv zeta.
  - cbn [fold_left]. rewrite app_nil_r. auto.
  - cbn [fold_left fst snd].
    assert (Dict.get n (nodes h) = None) as G.
    { apply DictFacts.get_none_iff. cbn [Dict.keys map fst] in ND.
      apply NoDup_remove_2 in ND. rewrite in_app_iff in ND. tauto. }
    assert (nodes (add_node n a h) = nodes h ++ [(n, a)]) as E.
    { unfold add_node. cbn [nodes]. unfold Dict.get_default.
      unfold attrs, Dict.t in *. rewrite G.
      rewrite DictFacts.update_nil_l by (apply (AN n a); left; reflexivity).
      apply set_absent. exact G. }
    destruct (IH (add_node n a h)) as [N [Ed D]].
    + rewrite E. unfold Dict.keys in *. rewrite map_app. cbn [map fst].
      rewrite <- app_assoc. exact ND.
    + intros n' a' I. apply (AN n' a'). right; exact I.
    + cbv zeta in *. rewrite N, Ed, D, E, <- app_assoc. auto.
Qed.

Lemma add_edge_undirected_joined u v x h a b :
  directed h = false ->
  joined (add_edge u v x h) a b <-> joined h a b \/ (a, b) = (u, v) \/ (a, b) = (v, u).
Proof.
  intros D. unfold joined, add_edge, edge_key. rewrite D. cbn [edges].
  assert ((b, a) = (v, u) <-> (a, b) = (u, v)) as E1
    by (split; intros X; inversion X; reflexivity).
  assert ((b, a) = (u, v) <-> (a, b) = (v, u)) as E2
    by (split; intros X; inversion X; reflexivity).
  destruct (Dict.mem (v, u) (edges h)); rewrite !DictFacts.in_keys_set; tauto.
Qed.

Lemma add_edges_undirected_joined (es : Dict.t (string * string) attrs) : forall h a b,
  directed h = false ->
  let h' := fold_left (fun acc ea => add_edge (fst (fst ea)) (snd (fst ea)) (snd ea) acc)
              es h in
  directed h' = false /\
  (joined h' a b <->
   joined h a b \/ In (a, b) (Dict.keys es) \/ In (b, a) (Dict.keys es)).
Proof.
  induction es as [|[[u v] x] es IH]; intros h a b D; cbv zeta.
  - cbn [fold_left]. split; [exact D|]. unfold Dict.keys. simpl. tauto.
  - cbn [fold_left fst snd].
    destruct (IH (add_edge u v x h) a b D) as [D' J]. cbv zeta in *.
    split; [exact D'|].
    rewrite J, add_edge_undirected_joined by exact D.
    cbn [Dict.keys map fst In]. fold (Dict.keys es).
    assert ((u, v) = (a, b) <-> (a, b) = (u, v)) as E1 by (split; congruence).
    assert ((u, v) = (b, a) <-> (a, b) = (v, u)) as E2
      by (split; intros X; inversion X; reflexivity).
    tauto.
Qed.

Lemma undirected_edge_data_joined h a b :
  directed h = false ->
  (exists x, get_edge_data h a b = Some x) <-> joined h a b.
Proof.
  intros D. unfold get_edge_data, edge_key, joined. rewrite D.
  rewrite !get_some_iff_in_keys. unfold Dict.mem.
  destruct (Dict.get (b, a) (edges h)) as [y|] eqn:G; cbv iota.
  - split; [intros _; right; eauto | intros _; eauto].
  - split; [intros X; left; exact X|].
    intros [X|[y Y]]; [exact X | discriminate].
Qed.

Lemma adjacency_keys g a b :
  (forall x y, In (x, y) (Dict.keys (edges g)) -> In x (Dict.keys (nodes g))) ->
  In (a, b) (Dict.keys (adjacency g)) <-> In (a, b) (Dict.keys (edges g)).
Proof.
  intros EP. unfold adjacency, Dict.keys at 1 3. rewrite !in_map_iff. split.
  - intros [ea [E I]]. apply in_flat_map in I as [n [_ I]].
    apply filter_In in I as [I _]. exists ea. auto.
  - intros [ea [E I]]. exists ea. split; [exact E|].
    apply in_flat_map. exists a. split.
    + apply (EP a b). unfold Dict.keys. apply in_map_iff. exists ea. auto.
    + apply filter_In. split; [exact I|].
      rewrite E. cbn [fst]. apply key_eqb_refl.
Qed.

(** X17. With no argument, [detect_communities] partitions the undirected
    projection of the source graph.  For a directed source graph as
    networkx keeps one, the projection has the same nodes with the same
    attributes (isolated sources included) and joins two sources exactly
    when the source graph has an edge between them in one direction or the
    other; with fewer than 2 nodes Louvain is not called. *)
Theorem communities_graph_is_undirected_projection :
  forall (lib : Library) (self : NetworkAnalyzer),
    directed (source_graph self) = true ->
    nx_graph (source_graph self) ->
    let g := source_graph self in
    let u := partitioned_graph None self in
    directed u = false /\
    nodes u = nodes g /\
    (forall a b,
       (exists x, get_edge_data u a b = Some x) <->
       (exists x, get_edge_data g a b = Some x) \/
       (exists x, get_edge_data g b a = Some x)) /\
    detect_communities lib None self =
      (Ok (if number_of_nodes g <? 2 then []
           else match best_partition lib u with
                | Ok p => p
                | Raise _ => []
                end),
       self).
Proof.
  intros lib self Dg [NN [NE [EP AT]]].
  cbv zeta. unfold partitioned_graph.
  set (g := source_graph self) in *.
  destruct (@add_nodes_fresh (nodes g) UGraph) as [N1 [E1 D1]].
  { cbn [UGraph nodes Dict.keys map app]. exact NN. }
  { exact AT. }
  cbv zeta in N1, E1, D1. cbn [UGraph nodes edges directed app] in N1, E1, D1.
  set (u1 := fold_left (fun acc na => add_node (fst na) (snd na) acc) (nodes g) UGraph) in *.
  assert (forall a b, In (a, b) (Dict.keys (adjacency g)) <-> In (a, b) (Dict.keys (edges g)))
    as AK.
  { intros a b. apply adjacency_keys. intros x y I. apply (EP x y I). }
  assert (nodes (to_undirected g) = nodes g) as NU.
  { unfold to_undirected. fold u1. rewrite add_edges_nodes_present; [exact N1|].
    intros a b I. rewrite N1. apply AK in I. apply (EP a b I). }
  assert (forall a b,
            directed (to_undirected g) = false /\
            (joined (to_undirected g) a b <-> joined g a b)) as JU.
  { intros a b. unfold to_undirected. fold u1.
    destruct (@add_edges_undirected_joined (adjacency g) u1 a b D1) as [D J].
    cbv zeta in *. split; [exact D|]. rewrite J, !AK.
    unfold joined at 1. rewrite E1. simpl. unfold joined. tauto. }
  assert (directed (to_undirected g) = false) as DU by (apply (JU "" "")).
  split; [exact DU|]. split; [exact NU|]. split.
  - intros a b. rewrite (@undirected_edge_data_joined (to_undirected g) a b DU).
    destruct (JU a b) as [_ ->]. unfold joined.
    unfold get_edge_data, edge_key. rewrite Dg.
    rewrite !get_some_iff_in_keys. tauto.
  - rewrite detect_communities_run. unfold partitioned_graph. fold g.
    unfold number_of_nodes. rewrite NU. reflexivity.
Qed.

Lemma communities_graph_is_undirected_projection_witness :
  directed (source_graph demo_analyzer) = true /\
  nx_graph (source_graph demo_analyzer) /\
  nodes (partitioned_graph None demo_analyzer) = nodes demo_graph /\
  Dict.keys (edges (partitioned_graph None demo_analyzer)) =
    [("src-a", "src-b"); ("src-z", "src-a")] /\
  detect_communities demo_library None demo_analyzer =
    (Ok [("src-a", 0); ("src-b", 0); ("src-z", 1)], demo_analyzer).
Proof.
  split; [reflexivity|]. split; [exact nx_graph_demo|].
  destruct (@communities_graph_is_undirected_projection demo_library demo_analyzer
              eq_refl nx_graph_demo) as [_ [N [_ Dc]]].
  split; [exact N|]. split; [vm_compute; reflexivity|].
  rewrite Dc. reflexivity.
Defined.

(** Two sources that forwarded each other: the projection keeps one edge,
    whose weight is that of the direction the adjacency meets last (the
    out-edge of the second node), not of the edge added last. *)
Example reciprocal_edges_projection :
  Dict.keys (edges reciprocal_graph) = [("b", "a"); ("a", "b")] /\
  edges (to_undirected reciprocal_graph) = [(("a", "b"), [("weight", VInt 1)])].
Proof. split; vm_compute; reflexivity. Qed.
